(** * Reading the wanted lockfile: [package-manager/modules/pnpm/read.ts]

    A shallow embedding of [convertFromLockfileFileMutable], [_read],
    [_readWantedLockfile] and [readWantedLockfile], and the properties of
    the load-and-compatibility pipeline proved about them.

    - JavaScript values are a tree ([value]); an object is the ordered list
      of its own properties, as property order is observable.
    - A function that may [throw] returns a [result]; a function that also
      writes to the logger returns [M], the log entries it emitted paired
      with its result.
    - The packages the module imports (the file system, [js-yaml],
      [semver], [comver-to-semver], [strip-bom], [@pnpm/constants],
      [@pnpm/types]) and the sibling modules [gitMergeFile] and
      [inlineSpecifiersLockfileConverters] are the fields of [Collaborators]. *)

From Stdlib Require Import String Ascii List Bool NArith.
Import ListNotations.
Open Scope string_scope.
#[local] Set Warnings "-register-all".

(** ** JavaScript values *)

(** A number is kept as the text [Number.prototype.toString] renders it
    as ([5.4] is ["5.4"]): rendering is the only thing this module does
    with a number, and it is one-to-one on the numbers a lockfile holds. *)
Inductive value : Type :=
| VUndefined
| VNull
| VBool (b : bool)
| VNum (repr : string)
| VStr (s : string)
| VObj (props : list (string * value))
| VArr (elems : list value) (props : list (string * value)).

Definition Props : Type := list (string * value).

(** *** Own properties *)

Fixpoint lookup (k : string) (p : Props) : option value :=
  match p with
  | [] => None
  | (k', v) :: rest => if String.eqb k k' then Some v else lookup k rest
  end.

(** [o[k] = v] on the property list: an existing property keeps its
    place, a new one goes last. *)
Fixpoint assign (k : string) (v : value) (p : Props) : Props :=
  match p with
  | [] => [(k, v)]
  | (k', v') :: rest =>
      if String.eqb k k' then (k, v) :: rest else (k', v') :: assign k v rest
  end.

(** [delete o[k]] on the property list. *)
Definition remove (k : string) (p : Props) : Props :=
  filter (fun kv => negb (String.eqb k (fst kv))) p.

Definition hasOwn (k : string) (p : Props) : bool :=
  match lookup k p with Some _ => true | None => false end.

Definition propsOf (v : value) : Props :=
  match v with
  | VObj p => p
  | VArr _ p => p
  | _ => []
  end.

Definition isObject (v : value) : bool :=
  match v with
  | VObj _ | VArr _ _ => true
  | _ => false
  end.

(** [v[k]] for a value that is neither [undefined] nor [null]. The names
    this module reads are data property names: none is an array index,
    ["length"], or a member of [Object.prototype] or [Array.prototype], so
    the own properties decide. *)
Definition get (v : value) (k : string) : value :=
  match lookup k (propsOf v) with
  | Some x => x
  | None => VUndefined
  end.

(** [v[k] = x] on an object; the callers below rule the primitives out
    before they write. *)
Definition set (v : value) (k : string) (x : value) : value :=
  match v with
  | VObj p => VObj (assign k x p)
  | VArr e p => VArr e (assign k x p)
  | _ => v
  end.

(** [delete v[k]] on an object. *)
Definition delete (v : value) (k : string) : value :=
  match v with
  | VObj p => VObj (remove k p)
  | VArr e p => VArr e (remove k p)
  | _ => v
  end.

(** [k in v], for own properties. *)
Definition has (v : value) (k : string) : bool := hasOwn k (propsOf v).

Definition isUndefined (v : value) : bool :=
  match v with VUndefined => true | _ => false end.

Definition isNull (v : value) : bool :=
  match v with VNull => true | _ => false end.

(** [a ?? b] *)
Definition nullish (a b : value) : value :=
  match a with
  | VUndefined | VNull => b
  | _ => a
  end.

(** [if (v)]: the falsy values are [undefined], [null], [false], [0],
    [NaN] and the empty string. *)
Definition truthy (v : value) : bool :=
  match v with
  | VUndefined | VNull => false
  | VBool b => b
  | VNum r => negb (String.eqb r "0" || String.eqb r "NaN")
  | VStr s => negb (String.eqb s EmptyString)
  | VObj _ | VArr _ _ => true
  end.

(** ** Errors and results *)

(** What a collaborator or the engine throws: an error object with its
    optional [code] and its [message]. *)
Record JsError : Type := mkJsError {
  code : option string;
  message : string
}.

Definition TypeError (msg : string) : JsError := mkJsError None msg.

(** What [_read] can end with when it does not return: an error it lets
    through as it caught it, or one of the two it constructs. *)
Inductive error : Type :=
| Thrown (err : JsError)
| PnpmError (code message : string)
| LockfileBreakingChangeError (lockfilePath : string).

Inductive result (E A : Type) : Type :=
| Ok (a : A)
| Err (e : E).
Arguments Ok {E A} a.
Arguments Err {E A} e.

(** A call into a collaborator. *)
Definition js (A : Type) : Type := result JsError A.

Definition rbind {E A B : Type} (r : result E A) (f : A -> result E B)
  : result E B :=
  match r with
  | Ok a => f a
  | Err e => Err e
  end.

(** ** Logged computations *)

Inductive logEntry : Type :=
| LogInfo (message prefix : string)
| LogWarn (message prefix : string).

(** What a call emitted on the logger, oldest first, and how it ended. An
    entry written before a [throw] stays written. *)
Definition M (A : Type) : Type := (list logEntry * result error A)%type.

Definition ret {A : Type} (a : A) : M A := ([], Ok a).
Definition throw {A : Type} (e : error) : M A := ([], Err e).

(** A collaborator called outside any [try]: what it throws goes through. *)
Definition call {A : Type} (r : js A) : M A :=
  match r with
  | Ok a => ([], Ok a)
  | Err e => ([], Err (Thrown e))
  end.

Definition logger_info (message prefix : string) : M unit :=
  ([LogInfo message prefix], Ok tt).
Definition logger_warn (message prefix : string) : M unit :=
  ([LogWarn message prefix], Ok tt).

Definition bind {A B : Type} (m : M A) (f : A -> M B) : M B :=
  match m with
  | (l, Ok a) => let (l', r) := f a in ((l ++ l')%list, r)
  | (l, Err e) => (l, Err e)
  end.

Declare Scope M_scope.
Delimit Scope M_scope with M.
Notation "x <- c ;; k" := (bind c (fun x => k))
  (at level 61, c at next level, right associativity) : M_scope.
Notation "c ;; k" := (bind c (fun _ => k))
  (at level 61, right associativity) : M_scope.

(** ** [toString] *)

(** [v.toString()]. A mapping with an own ["toString"] property shadows
    the inherited method with something that cannot be called; an array
    renders its elements joined by commas, [undefined] and [null] as the
    empty string, unless an own ["join"] shadows the method it uses. *)
Fixpoint toString (v : value) : js string :=
  match v with
  | VUndefined => Err (TypeError "Cannot read properties of undefined")
  | VNull => Err (TypeError "Cannot read properties of null")
  | VBool b => Ok (if b then "true" else "false")
  | VNum r => Ok r
  | VStr s => Ok s
  | VObj p =>
      if hasOwn "toString" p then Err (TypeError "toString is not a function")
      else Ok "[object Object]"
  | VArr elems p =>
      if hasOwn "toString" p then Err (TypeError "toString is not a function")
      else if hasOwn "join" p then Ok "[object Array]"
      else
        (fix join (l : list value) : js string :=
           match l with
           | [] => Ok EmptyString
           | x :: rest =>
               rbind
                 (match x with
                  | VUndefined | VNull => Ok EmptyString
                  | _ => toString x
                  end)
                 (fun sx =>
                    match rest with
                    | [] => Ok sx
                    | _ => rbind (join rest) (fun sr => Ok (sx ++ "," ++ sr))
                    end)
           end) elems
  end.

(** ** Collaborators *)

(** The imports of [read.ts]. None of them keeps state between calls. *)
Record Collaborators : Type := {
  (** [WANTED_LOCKFILE] of [@pnpm/constants] *)
  WANTED_LOCKFILE : string;
  (** [DEPENDENCIES_FIELDS] of [@pnpm/types] *)
  DEPENDENCIES_FIELDS : list string;
  (** [fs.readFileSync(path, 'utf8')] on the file system of the call *)
  readFileSync : string -> js string;
  (** [require('strip-bom').default] *)
  stripBom : string -> string;
  (** [yaml.load] *)
  yaml_load : string -> js value;
  (** [path.join], at two arguments *)
  path_join : string -> string -> string;
  comverToSemver : string -> string;
  (** [semver.major] and [semver.gt]; both throw on a string that is not a
      version *)
  semver_major : string -> js N;
  semver_gt : string -> string -> js bool;
  (** [isDiff] and [autofixMergeConflicts] of [./gitMergeFile] *)
  isDiff : string -> bool;
  autofixMergeConflicts : string -> js value;
  (** of [./inlineSpecifiersLockfileConverters] *)
  revertFromInlineSpecifiersFormatIfNecessary : value -> js value
}.

(** The options of [_read], and of [_readWantedLockfile], which sets
    [autofixMergeConflicts] itself. An optional option left out is
    [None]. *)
Record ReadOpts : Type := {
  opt_autofixMergeConflicts : option bool;
  wantedVersions : option (list string);
  ignoreIncompatible : bool
}.

Record ReadResult : Type := {
  lockfile : value;
  hadConflicts : bool
}.

(** [v === s] for a string literal [s]: a value of another type is never
    strictly equal to a string. *)
Definition strictEqString (v : value) (s : string) : bool :=
  match v with
  | VStr t => String.eqb t s
  | _ => false
  end.

Definition dquote : string := String (ascii_of_nat 34) EmptyString.

(** ** [convertFromLockfileFileMutable] *)

Section Read.

Context (C : Collaborators).

(** The body of the loop over [DEPENDENCIES_FIELDS] (lines 143-146). The
    snapshot written to is the object held at [importers['.']]; writing to
    it in place is writing it back at the same two keys. Reading ['.'] of
    a missing [importers], or writing to a missing snapshot, throws. *)
Definition moveDependencies (lockfileFile : value) (depType : string)
  : js value :=
  if negb (isNull (get lockfileFile depType)) then
    let importers := get lockfileFile "importers" in
    let snapshot := get importers "." in
    if isObject snapshot then
      Ok (delete
            (set lockfileFile "importers"
               (set importers "."
                  (set snapshot depType (get lockfileFile depType))))
            depType)
    else Err (TypeError "Cannot set properties of undefined")
  else Ok lockfileFile.

(** [for (const x of xs) body], threading the mutated object. *)
Fixpoint forOf (body : value -> string -> js value) (xs : list string)
  (o : value) : js value :=
  match xs with
  | [] => Ok o
  | x :: rest => rbind (body o x) (forOf body rest)
  end.

(** The snapshot literal of lines 135-139. *)
Definition defaultSnapshot (lockfileFile : value) : value :=
  VObj [("specifiers", nullish (get lockfileFile "specifiers") (VObj []));
        ("dependenciesMeta", get lockfileFile "dependenciesMeta");
        ("publishDirectory", get lockfileFile "publishDirectory")].

(** [lockfileFile?.['importers']] reads as [undefined] on [undefined] and
    [null], and so does [get]. The module is strict-mode code: assigning a
    property on a primitive throws, as it does on [undefined] and [null]. *)
Definition convertFromLockfileFileMutable (lockfileFile : value) : js value :=
  if isUndefined (get lockfileFile "importers") then
    if isObject lockfileFile then
      let lockfileFile1 :=
        set lockfileFile "importers"
          (VObj [(".", defaultSnapshot lockfileFile)]) in
      let lockfileFile2 := delete lockfileFile1 "specifiers" in
      forOf moveDependencies (DEPENDENCIES_FIELDS C) lockfileFile2
    else Err (TypeError "Cannot set properties")
  else Ok lockfileFile.

(** ** [_read] *)

Definition downgradeWarning (wantedVersion : string) : string :=
  "Your " ++ WANTED_LOCKFILE C ++
  " was generated by a newer version of pnpm. " ++
  "It is a compatible version but it might get downgraded to version " ++
  wantedVersion.

(** The callback given to [some] (lines 81-93). *)
Definition wantedVersionMatches (lockfile : value)
  (lockfileSemver prefix wantedVersion : string) : M bool :=
  (m <- call (semver_major C lockfileSemver) ;;
   w <- call (semver_major C (comverToSemver C wantedVersion)) ;;
   if negb (N.eqb m w) then ret false
   else
     newer <-
       (if negb (strictEqString (get lockfile "lockfileVersion") "6.1")
        then call (semver_gt C lockfileSemver (comverToSemver C wantedVersion))
        else ret false) ;;
     (if newer : bool
      then logger_warn (downgradeWarning wantedVersion) prefix
      else ret tt) ;;
     ret true)%M.

(** [Array.prototype.some]: stops at the first element the callback
    answers [true] for. *)
Fixpoint some {A : Type} (f : A -> M bool) (xs : list A) : M bool :=
  match xs with
  | [] => ret false
  | x :: rest => (b <- f x ;; if b : bool then ret true else some f rest)%M
  end.

(** [(lockfile.lockfileVersion ?? 0).toString()] *)
Definition lockfileToken (lockfile : value) : js string :=
  toString (nullish (get lockfile "lockfileVersion") (VNum "0")).

(** Lines 75-102, where the two ways of obtaining [lockfile] meet: the
    compatibility evaluation of the document against [opts.wantedVersions]
    and what [_read] makes of its verdict. *)
Definition compatibilityGate (lockfilePath prefix : string) (opts : ReadOpts)
  (lockfile : value) (hadConflicts : bool) : M ReadResult :=
  (accepted <-
     (if truthy lockfile then
        token <- call (lockfileToken lockfile) ;;
        let lockfileSemver := comverToSemver C token in
        match wantedVersions opts with
        | None => ret true
        | Some wanted =>
            if Nat.eqb (List.length wanted) 0 then ret true
            else some (wantedVersionMatches lockfile lockfileSemver prefix)
                   wanted
        end
      else ret false) ;;
   if accepted : bool then
     ret {| lockfile := lockfile; hadConflicts := hadConflicts |}
   else if ignoreIncompatible opts then
     logger_warn ("Ignoring not compatible lockfile at " ++ lockfilePath)
       prefix ;;
     ret {| lockfile := VNull; hadConflicts := false |}
   else throw (LockfileBreakingChangeError lockfilePath))%M.

(** [!opts.autofixMergeConflicts] *)
Definition autofixPermitted (opts : ReadOpts) : bool :=
  match opt_autofixMergeConflicts opts with
  | Some b => b
  | None => false
  end.

(** The [try] block of lines 58-62. *)
Definition parseLockfile (lockfileRawContent : string) : js value :=
  rbind (yaml_load C lockfileRawContent) (fun parsed =>
  rbind (convertFromLockfileFileMutable parsed)
    (revertFromInlineSpecifiersFormatIfNecessary C)).

Definition brokenLockfile (lockfilePath : string) (err : JsError) : error :=
  PnpmError "BROKEN_LOCKFILE"
    ("The lockfile at " ++ dquote ++ lockfilePath ++ dquote ++
     " is broken: " ++ message err).

Definition _read (lockfilePath prefix : string) (opts : ReadOpts)
  : M ReadResult :=
  match readFileSync C lockfilePath with
  | Err err =>
      if negb (match code err with
               | Some c => String.eqb c "ENOENT"
               | None => false
               end)
      then throw (Thrown err)
      else ret {| lockfile := VNull; hadConflicts := false |}
  | Ok content =>
      let lockfileRawContent := stripBom C content in
      match parseLockfile lockfileRawContent with
      | Ok lockfile => compatibilityGate lockfilePath prefix opts lockfile false
      | Err err =>
          if negb (autofixPermitted opts) || negb (isDiff C lockfileRawContent)
          then throw (brokenLockfile lockfilePath err)
          else
            (merged <- call (autofixMergeConflicts C lockfileRawContent) ;;
             lockfile <- call (convertFromLockfileFileMutable merged) ;;
             logger_info
               ("Merge conflict detected in " ++ WANTED_LOCKFILE C ++
                " and successfully merged") prefix ;;
             compatibilityGate lockfilePath prefix opts lockfile true)%M
      end
  end.

(** ** [_readWantedLockfile] and [readWantedLockfile] *)

(** [{ ...opts, autofixMergeConflicts: true }] *)
Definition withAutofix (opts : ReadOpts) : ReadOpts :=
  {| opt_autofixMergeConflicts := Some true;
     wantedVersions := wantedVersions opts;
     ignoreIncompatible := ignoreIncompatible opts |}.

(** The loop of lines 118-123 over the remaining [lockfileNames], with
    the [result] assigned so far. *)
Fixpoint readFirst (pkgPath : string) (opts : ReadOpts)
  (lockfileNames : list string) (result : ReadResult) : M ReadResult :=
  match lockfileNames with
  | [] => ret result
  | lockfileName :: rest =>
      (result' <- _read (path_join C pkgPath lockfileName) pkgPath
                    (withAutofix opts) ;;
       if truthy (lockfile result') then ret result'
       else readFirst pkgPath opts rest result')%M
  end.

Definition _readWantedLockfile (pkgPath : string) (opts : ReadOpts)
  : M ReadResult :=
  readFirst pkgPath opts [WANTED_LOCKFILE C]
    {| lockfile := VNull; hadConflicts := false |}.

Definition readWantedLockfile (pkgPath : string) (opts : ReadOpts) : M value :=
  (result <- _readWantedLockfile pkgPath opts ;; ret (lockfile result))%M.

End Read.

(** ** Stand-ins for the collaborators

    A small project tree and doubles for the imported functions, used to
    run the model on concrete reads. The version functions accept plain
    [MAJOR.MINOR.PATCH] strings of decimal numbers without leading zeros
    and reject everything else. *)
Module Demo.

Definition isDigit (c : ascii) : bool :=
  let n := nat_of_ascii c in (Nat.leb 48 n && Nat.leb n 57)%bool.

Fixpoint digitsValue (s : string) (acc : N) : option N :=
  match s with
  | EmptyString => Some acc
  | String c rest =>
      if isDigit c
      then digitsValue rest (10 * acc + N.of_nat (nat_of_ascii c - 48))%N
      else None
  end.

(** A numeric identifier: ["0"], or digits that do not start with [0]. *)
Definition numericIdentifier (s : string) : option N :=
  match s with
  | EmptyString => None
  | String c rest =>
      if (Ascii.eqb c "0"%char && negb (String.eqb rest EmptyString))%bool
      then None
      else digitsValue s 0%N
  end.

(** [s.split('.')] *)
Fixpoint splitDots (s : string) (current : string) : list string :=
  match s with
  | EmptyString => [current]
  | String c rest =>
      if Ascii.eqb c "."%char then current :: splitDots rest EmptyString
      else splitDots rest (current ++ String c EmptyString)
  end.

Definition parseVersion (s : string) : option (N * N * N) :=
  match splitDots s EmptyString with
  | [a; b; c] =>
      match numericIdentifier a, numericIdentifier b, numericIdentifier c with
      | Some x, Some y, Some z => Some (x, y, z)
      | _, _, _ => None
      end
  | _ => None
  end.

Definition invalidVersion (s : string) : JsError :=
  TypeError ("Invalid Version: " ++ s).

Definition major (s : string) : js N :=
  match parseVersion s with
  | Some (x, _, _) => Ok x
  | None => Err (invalidVersion s)
  end.

Definition gt (a b : string) : js bool :=
  match parseVersion a, parseVersion b with
  | Some (x, y, z), Some (x', y', z') =>
      Ok (if N.eqb x x'
          then if N.eqb y y' then N.ltb z' z else N.ltb y' y
          else N.ltb x' x)
  | None, _ => Err (invalidVersion a)
  | _, None => Err (invalidVersion b)
  end.

(** [s.includes(needle)] *)
Fixpoint includes (needle s : string) : bool :=
  (String.prefix needle s ||
   match s with
   | EmptyString => false
   | String _ rest => includes needle rest
   end)%bool.

(** A two-part version gets a patch number, a one-part version a minor
    and a patch number. *)
Definition comver (s : string) : string :=
  if includes "." s then s ++ ".0" else s ++ ".0.0".

Definition nl : string := String (ascii_of_nat 10) EmptyString.

(** The lockfiles of the demo projects, as text. *)
Definition canonicalText : string :=
  "lockfileVersion: '6.0'" ++ nl ++ "importers: {}" ++ nl.
Definition newerText : string :=
  "lockfileVersion: '6.3'" ++ nl ++ "importers: {}" ++ nl.
Definition legacyText : string :=
  "lockfileVersion: 5.4" ++ nl ++ "specifiers: {}" ++ nl ++
  "dependencies: {}" ++ nl ++ "devDependencies:" ++ nl.
Definition brokenText : string := "lockfileVersion: [".
Definition conflictText : string :=
  "<<<<<<< HEAD" ++ nl ++ "lockfileVersion: '6.0'" ++ nl ++
  "=======" ++ nl ++ "lockfileVersion: '6.0'" ++ nl ++
  ">>>>>>> branch" ++ nl ++ "importers: {}" ++ nl.

(** ... and as [yaml.load] reads them. *)
Definition canonicalDoc : value :=
  VObj [("lockfileVersion", VStr "6.0"); ("importers", VObj [])].
Definition newerDoc : value :=
  VObj [("lockfileVersion", VStr "6.3"); ("importers", VObj [])].
Definition legacyDoc : value :=
  VObj [("lockfileVersion", VNum "5.4"); ("specifiers", VObj []);
        ("dependencies", VObj []); ("devDependencies", VNull)].

Definition syntaxError : JsError :=
  mkJsError None "unexpected end of the stream within a flow collection".

Definition load (text : string) : js value :=
  if String.eqb text canonicalText then Ok canonicalDoc
  else if String.eqb text newerText then Ok newerDoc
  else if String.eqb text legacyText then Ok legacyDoc
  else Err syntaxError.

Definition merge (text : string) : js value :=
  if String.eqb text conflictText then Ok canonicalDoc
  else Err (mkJsError None "cannot merge").

Definition readFile (path : string) : js string :=
  if String.eqb path "/canonical/pnpm-lock.yaml" then Ok canonicalText
  else if String.eqb path "/newer/pnpm-lock.yaml" then Ok newerText
  else if String.eqb path "/legacy/pnpm-lock.yaml" then Ok legacyText
  else if String.eqb path "/broken/pnpm-lock.yaml" then Ok brokenText
  else if String.eqb path "/conflict/pnpm-lock.yaml" then Ok conflictText
  else if String.eqb path "/locked/pnpm-lock.yaml"
  then Err (mkJsError (Some "EACCES") "EACCES: permission denied")
  else Err (mkJsError (Some "ENOENT") "ENOENT: no such file or directory").

Definition collaborators : Collaborators := {|
  WANTED_LOCKFILE := "pnpm-lock.yaml";
  DEPENDENCIES_FIELDS :=
    ["optionalDependencies"; "dependencies"; "devDependencies"];
  readFileSync := readFile;
  stripBom := fun text => text;
  yaml_load := load;
  path_join := fun dir name => dir ++ "/" ++ name;
  comverToSemver := comver;
  semver_major := major;
  semver_gt := gt;
  isDiff := includes "<<<<<<<";
  autofixMergeConflicts := merge;
  revertFromInlineSpecifiersFormatIfNecessary := fun lockfile => Ok lockfile
|}.

Definition opts (wanted : option (list string)) (ignore : bool) : ReadOpts :=
  {| opt_autofixMergeConflicts := Some true;
     wantedVersions := wanted;
     ignoreIncompatible := ignore |}.

End Demo.

(** Two more project trees: one whose conflicts cannot be merged, and one
    whose lockfile is an empty file, which [yaml.load] reads as
    [undefined]. *)
Module Scenes.

Definition unmergeable : JsError := mkJsError None "cannot merge".

Definition failingMerge : Collaborators := {|
  WANTED_LOCKFILE := WANTED_LOCKFILE Demo.collaborators;
  DEPENDENCIES_FIELDS := DEPENDENCIES_FIELDS Demo.collaborators;
  readFileSync := readFileSync Demo.collaborators;
  stripBom := stripBom Demo.collaborators;
  yaml_load := yaml_load Demo.collaborators;
  path_join := path_join Demo.collaborators;
  comverToSemver := comverToSemver Demo.collaborators;
  semver_major := semver_major Demo.collaborators;
  semver_gt := semver_gt Demo.collaborators;
  isDiff := isDiff Demo.collaborators;
  autofixMergeConflicts := fun _ => Err unmergeable;
  revertFromInlineSpecifiersFormatIfNecessary :=
    revertFromInlineSpecifiersFormatIfNecessary Demo.collaborators
|}.

Definition emptyFile : Collaborators := {|
  WANTED_LOCKFILE := WANTED_LOCKFILE Demo.collaborators;
  DEPENDENCIES_FIELDS := DEPENDENCIES_FIELDS Demo.collaborators;
  readFileSync := fun _ => Ok EmptyString;
  stripBom := stripBom Demo.collaborators;
  yaml_load :=
    fun text =>
      if String.eqb text EmptyString then Ok VUndefined
      else yaml_load Demo.collaborators text;
  path_join := path_join Demo.collaborators;
  comverToSemver := comverToSemver Demo.collaborators;
  semver_major := semver_major Demo.collaborators;
  semver_gt := semver_gt Demo.collaborators;
  isDiff := isDiff Demo.collaborators;
  autofixMergeConflicts := autofixMergeConflicts Demo.collaborators;
  revertFromInlineSpecifiersFormatIfNecessary :=
    revertFromInlineSpecifiersFormatIfNecessary Demo.collaborators
|}.

(** A document whose format version is not a version. *)
Definition unversionedDoc : value :=
  VObj [("lockfileVersion", VStr "next"); ("importers", VObj [])].

(** A document with the carve-out version. *)
Definition transitionalDoc : value :=
  VObj [("lockfileVersion", VStr "6.1"); ("importers", VObj [])].

End Scenes.

(** * Properties *)

(** ** Vocabulary *)

(** The own property [k] of [v], if it has one. *)
Definition own (v : value) (k : string) : option value :=
  lookup k (propsOf v).

(** What the loop needs and keeps: the document is an object and holds an
    object at [importers['.']]. *)
Definition hasDefaultSnapshot (lockfileFile : value) : Prop :=
  isObject lockfileFile = true /\
  isObject (get lockfileFile "importers") = true /\
  isObject (get (get lockfileFile "importers") ".") = true.

(** The document as the loop finds it (after lines 133-141). *)
Definition beforeLoop (lockfileFile : value) : value :=
  delete
    (set lockfileFile "importers" (VObj [(".", defaultSnapshot lockfileFile)]))
    "specifiers".

(** [wantedVersion] has a major component other than [m]. *)
Definition otherMajor (C : Collaborators) (m : N) (wantedVersion : string)
  : Prop :=
  exists w, semver_major C (comverToSemver C wantedVersion) = Ok w /\ w <> m.

(** [wantedVersion] has the major component [m]. *)
Definition sameMajor (C : Collaborators) (m : N) (wantedVersion : string)
  : Prop :=
  semver_major C (comverToSemver C wantedVersion) = Ok m.

(** The outcome for a lockfile that is not there or is not to be used. *)
Definition absent : ReadResult := {| lockfile := VNull; hadConflicts := false |}.

(** The two notices of [_read] other than the downgrade warning. *)
Definition mergeNotice (C : Collaborators) : string :=
  "Merge conflict detected in " ++ WANTED_LOCKFILE C ++
  " and successfully merged".

Definition ignoreNotice (lockfilePath : string) : string :=
  "Ignoring not compatible lockfile at " ++ lockfilePath.

(** [lockfileFile.importers['.']] *)
Definition snapshotOf (lockfileFile : value) : value :=
  get (get lockfileFile "importers") ".".

(** [depTypes.includes(k)] *)
Definition listed (k : string) (depTypes : list string) : bool :=
  existsb (String.eqb k) depTypes.

(** The ways through [_read], each with what it logged and how it ended:
    the file is missing; reading it failed otherwise; it parsed; it did
    not parse and was not repaired; the repair failed; it was repaired. *)
Inductive ReadPath (C : Collaborators) (lockfilePath prefix : string)
  (opts : ReadOpts) : list logEntry -> result error ReadResult -> Prop :=
| PathMissing (err : JsError) :
    readFileSync C lockfilePath = Err err ->
    code err = Some "ENOENT" ->
    ReadPath C lockfilePath prefix opts [] (Ok absent)
| PathUnreadable (err : JsError) :
    readFileSync C lockfilePath = Err err ->
    code err <> Some "ENOENT" ->
    ReadPath C lockfilePath prefix opts [] (Err (Thrown err))
| PathParsed (content : string) (parsed : value) (l : list logEntry)
    (r : result error ReadResult) :
    readFileSync C lockfilePath = Ok content ->
    parseLockfile C (stripBom C content) = Ok parsed ->
    compatibilityGate C lockfilePath prefix opts parsed false = (l, r) ->
    ReadPath C lockfilePath prefix opts l r
| PathBroken (content : string) (err : JsError) :
    readFileSync C lockfilePath = Ok content ->
    parseLockfile C (stripBom C content) = Err err ->
    autofixPermitted opts = false \/ isDiff C (stripBom C content) = false ->
    ReadPath C lockfilePath prefix opts []
      (Err (brokenLockfile lockfilePath err))
| PathMergeFailed (content : string) (err failure : JsError) :
    readFileSync C lockfilePath = Ok content ->
    parseLockfile C (stripBom C content) = Err err ->
    autofixPermitted opts = true ->
    isDiff C (stripBom C content) = true ->
    rbind (autofixMergeConflicts C (stripBom C content))
      (convertFromLockfileFileMutable C) = Err failure ->
    ReadPath C lockfilePath prefix opts [] (Err (Thrown failure))
| PathMerged (content : string) (err : JsError) (merged normalized : value)
    (l : list logEntry) (r : result error ReadResult) :
    readFileSync C lockfilePath = Ok content ->
    parseLockfile C (stripBom C content) = Err err ->
    autofixPermitted opts = true ->
    isDiff C (stripBom C content) = true ->
    autofixMergeConflicts C (stripBom C content) = Ok merged ->
    convertFromLockfileFileMutable C merged = Ok normalized ->
    compatibilityGate C lockfilePath prefix opts normalized true = (l, r) ->
    ReadPath C lockfilePath prefix opts
      (LogInfo (mergeNotice C) prefix :: l) r.

(** ** Own properties under assignment and deletion *)

Lemma lookup_assign (k k' : string) (x : value) (p : Props) :
  lookup k' (assign k x p) = if String.eqb k' k then Some x else lookup k' p.
Proof.
  induction p as [|[j y] rest IH]; simpl.
  - destruct (String.eqb k' k); reflexivity.
  - destruct (String.eqb_spec k j) as [->|Hkj]; simpl.
    + destruct (String.eqb k' j); reflexivity.
    + destruct (String.eqb_spec k' j) as [->|Hk'j].
      * destruct (String.eqb_spec j k) as [->|_]; [contradiction | reflexivity].
      * exact IH.
Qed.

Lemma lookup_remove (k k' : string) (p : Props) :
  lookup k' (remove k p) = if String.eqb k' k then None else lookup k' p.
Proof.
  unfold remove.
  induction p as [|[j y] rest IH]; simpl.
  - destruct (String.eqb k' k); reflexivity.
  - destruct (String.eqb_spec k j) as [->|Hkj]; simpl.
    + rewrite IH. destruct (String.eqb k' j); reflexivity.
    + destruct (String.eqb_spec k' j) as [->|Hk'j].
      * destruct (String.eqb_spec j k) as [->|_]; [contradiction | reflexivity].
      * exact IH.
Qed.

Lemma own_set (v : value) (k k' : string) (x : value) :
  isObject v = true ->
  own (set v k x) k' = if String.eqb k' k then Some x else own v k'.
Proof.
  unfold own. destruct v; simpl; try discriminate; intros _;
    apply lookup_assign.
Qed.

Lemma own_delete (v : value) (k k' : string) :
  own (delete v k) k' = if String.eqb k' k then None else own v k'.
Proof.
  unfold own.
  destruct v; simpl; try apply lookup_remove;
    destruct (String.eqb k' k); reflexivity.
Qed.

Lemma get_own (v : value) (k : string) :
  get v k = match own v k with Some x => x | None => VUndefined end.
Proof. reflexivity. Qed.

Lemma has_own (v : value) (k : string) :
  has v k = match own v k with Some _ => true | None => false end.
Proof. reflexivity. Qed.

Lemma isObject_set (v : value) (k : string) (x : value) :
  isObject (set v k x) = isObject v.
Proof. destruct v; reflexivity. Qed.

Lemma isObject_delete (v : value) (k : string) :
  isObject (delete v k) = isObject v.
Proof. destruct v; reflexivity. Qed.

(** ** The schema normalization *)

Section Normalization.

Context (C : Collaborators).

Lemma moveDependencies_skip (lockfileFile : value) (depType : string) :
  get lockfileFile depType = VNull ->
  moveDependencies lockfileFile depType = Ok lockfileFile.
Proof. unfold moveDependencies. intros ->. reflexivity. Qed.

Lemma moveDependencies_move (lockfileFile : value) (depType : string) :
  hasDefaultSnapshot lockfileFile ->
  get lockfileFile depType <> VNull ->
  moveDependencies lockfileFile depType =
  Ok (delete
        (set lockfileFile "importers"
           (set (get lockfileFile "importers") "."
              (set (get (get lockfileFile "importers") ".") depType
                 (get lockfileFile depType))))
        depType).
Proof.
  intros (_ & _ & Hsnap) Hnn. unfold moveDependencies.
  destruct (get lockfileFile depType) eqn:E; try congruence;
    simpl; rewrite Hsnap; reflexivity.
Qed.

(** A moved field is gone from the root; the other root fields, apart
    from [importers], are as they were. *)
Lemma moveDependencies_root (lockfileFile lockfileFile' : value)
  (depType k : string) :
  hasDefaultSnapshot lockfileFile ->
  moveDependencies lockfileFile depType = Ok lockfileFile' ->
  k <> "importers" ->
  own lockfileFile' k =
  if (String.eqb k depType && negb (isNull (get lockfileFile depType)))%bool
  then None else own lockfileFile k.
Proof.
  intros Hinv Hstep Hk.
  destruct (get lockfileFile depType) eqn:E.
  all: try (rewrite moveDependencies_move in Hstep
              by (try assumption; rewrite E; discriminate);
            injection Hstep as <-;
            rewrite own_delete, andb_true_r;
            destruct (String.eqb k depType); [reflexivity|];
            rewrite own_set by apply Hinv;
            destruct (String.eqb_spec k "importers");
            [contradiction | reflexivity]).
  rewrite moveDependencies_skip in Hstep by assumption.
  injection Hstep as <-. rewrite andb_false_r. reflexivity.
Qed.

Lemma moveDependencies_keeps (lockfileFile lockfileFile' : value)
  (depType : string) :
  hasDefaultSnapshot lockfileFile ->
  depType <> "importers" ->
  moveDependencies lockfileFile depType = Ok lockfileFile' ->
  hasDefaultSnapshot lockfileFile'.
Proof.
  intros Hinv Hd Hstep.
  destruct (get lockfileFile depType) eqn:E.
  all: try (rewrite moveDependencies_move in Hstep
              by (try assumption; rewrite E; discriminate);
            injection Hstep as <-;
            destruct Hinv as (Hobj & Himp & Hsnap);
            assert (Hget : get (delete
                      (set lockfileFile "importers"
                         (set (get lockfileFile "importers") "."
                            (set (get (get lockfileFile "importers") ".")
                               depType (get lockfileFile depType))))
                      depType) "importers" =
                    set (get lockfileFile "importers") "."
                      (set (get (get lockfileFile "importers") ".")
                         depType (get lockfileFile depType)))
              by (rewrite get_own, own_delete;
                  destruct (String.eqb_spec "importers" depType) as [Heq|_];
                  [symmetry in Heq; contradiction|];
                  rewrite own_set by assumption; reflexivity);
            repeat split;
            [ rewrite isObject_delete, isObject_set; assumption
            | rewrite Hget, isObject_set; assumption
            | rewrite Hget, get_own, own_set by assumption; simpl;
              rewrite isObject_set; assumption ]).
  rewrite moveDependencies_skip in Hstep by assumption.
  injection Hstep as <-. assumption.
Qed.

Lemma moveDependencies_total (lockfileFile : value) (depType : string) :
  hasDefaultSnapshot lockfileFile ->
  exists lockfileFile', moveDependencies lockfileFile depType = Ok lockfileFile'.
Proof.
  intros Hinv. destruct (get lockfileFile depType) eqn:E.
  all: try (eexists; apply moveDependencies_move;
            [assumption | rewrite E; discriminate]).
  eexists. apply moveDependencies_skip. assumption.
Qed.

(** The whole loop: it runs to the end, keeps the default snapshot, never
    brings a root field back, and leaves no field of the list at the root
    unless its value there was [null]. *)
Lemma forOf_moveDependencies (depTypes : list string) :
  ~ In "importers" depTypes ->
  forall lockfileFile : value,
    hasDefaultSnapshot lockfileFile ->
    exists lockfileFile',
      forOf moveDependencies depTypes lockfileFile = Ok lockfileFile' /\
      hasDefaultSnapshot lockfileFile' /\
      forall k : string,
        k <> "importers" ->
        (own lockfileFile k = None -> own lockfileFile' k = None) /\
        (In k depTypes -> get lockfileFile k <> VNull ->
         own lockfileFile' k = None).
Proof.
  induction depTypes as [|depType rest IH]; intros Hnot lockfileFile Hinv.
  - exists lockfileFile. simpl.
    split; [reflexivity|]. split; [assumption|].
    intros k _. split; [auto | intros []].
  - assert (Hd : depType <> "importers")
      by (intros ->; apply Hnot; left; reflexivity).
    assert (Hrest : ~ In "importers" rest)
      by (intros H; apply Hnot; right; exact H).
    destruct (moveDependencies_total lockfileFile depType Hinv)
      as [mid Hstep].
    pose proof (moveDependencies_keeps _ _ _ Hinv Hd Hstep) as Hmid.
    destruct (IH Hrest mid Hmid) as (final & Hrun & Hfinal & Hroot).
    exists final. simpl. rewrite Hstep. simpl.
    split; [assumption|]. split; [assumption|].
    intros k H. split.
    + intros Habsent. apply (proj1 (Hroot k H)).
      rewrite (moveDependencies_root _ _ depType k Hinv Hstep H), Habsent.
      destruct (_ && _)%bool; reflexivity.
    + intros Hin Hnn.
      pose proof (moveDependencies_root _ _ depType k Hinv Hstep H) as Hk.
      destruct (String.eqb_spec k depType) as [->|Hne].
      * apply (proj1 (Hroot depType H)).
        rewrite Hk. simpl.
        destruct (get lockfileFile depType); simpl;
          try reflexivity; congruence.
      * simpl in Hk. destruct Hin as [Heq|Hin]; [congruence|].
        apply (proj2 (Hroot k H)); [exact Hin|].
        rewrite get_own, Hk, <- get_own. exact Hnn.
Qed.

Lemma beforeLoop_hasDefaultSnapshot (lockfileFile : value) :
  isObject lockfileFile = true -> hasDefaultSnapshot (beforeLoop lockfileFile).
Proof.
  intros Hobj. unfold beforeLoop.
  assert (Hget : get (delete
                        (set lockfileFile "importers"
                           (VObj [(".", defaultSnapshot lockfileFile)]))
                        "specifiers") "importers" =
                 VObj [(".", defaultSnapshot lockfileFile)])
    by (rewrite get_own, own_delete; simpl;
        rewrite own_set by assumption; reflexivity).
  repeat split.
  - rewrite isObject_delete, isObject_set. assumption.
  - rewrite Hget. reflexivity.
  - rewrite Hget. reflexivity.
Qed.

Lemma convert_legacy (lockfileFile : value) :
  get lockfileFile "importers" = VUndefined ->
  isObject lockfileFile = true ->
  convertFromLockfileFileMutable C lockfileFile =
  forOf moveDependencies (DEPENDENCIES_FIELDS C) (beforeLoop lockfileFile).
Proof.
  intros Himp Hobj. unfold convertFromLockfileFileMutable.
  rewrite Himp, Hobj. reflexivity.
Qed.

Lemma convert_canonical (lockfileFile : value) :
  get lockfileFile "importers" <> VUndefined ->
  convertFromLockfileFileMutable C lockfileFile = Ok lockfileFile.
Proof.
  intros Himp. unfold convertFromLockfileFileMutable.
  destruct (get lockfileFile "importers"); try reflexivity. congruence.
Qed.

Lemma convert_primitive (lockfileFile : value) :
  isObject lockfileFile = false ->
  convertFromLockfileFileMutable C lockfileFile =
  Err (TypeError "Cannot set properties").
Proof.
  intros Hobj. unfold convertFromLockfileFileMutable.
  rewrite Hobj. destruct lockfileFile; try reflexivity; discriminate.
Qed.

(** A mapping or sequence without [importers] goes through the whole
    migration: the loop ends, on a document with the default snapshot. *)
Lemma convert_legacy_runs (lockfileFile : value) :
  ~ In "importers" (DEPENDENCIES_FIELDS C) ->
  get lockfileFile "importers" = VUndefined ->
  isObject lockfileFile = true ->
  exists lockfileFile',
    convertFromLockfileFileMutable C lockfileFile = Ok lockfileFile' /\
    hasDefaultSnapshot lockfileFile' /\
    forall k : string,
      k <> "importers" ->
      (own (beforeLoop lockfileFile) k = None -> own lockfileFile' k = None) /\
      (In k (DEPENDENCIES_FIELDS C) ->
       get (beforeLoop lockfileFile) k <> VNull ->
       own lockfileFile' k = None).
Proof.
  intros Hnot Himp Hobj. rewrite (convert_legacy _ Himp Hobj).
  apply (forOf_moveDependencies _ Hnot).
  apply beforeLoop_hasDefaultSnapshot. exact Hobj.
Qed.

(** Whatever normalization returns has [importers]. *)
Lemma convert_defines_importers (lockfileFile lockfileFile' : value) :
  ~ In "importers" (DEPENDENCIES_FIELDS C) ->
  convertFromLockfileFileMutable C lockfileFile = Ok lockfileFile' ->
  get lockfileFile' "importers" <> VUndefined.
Proof.
  intros Hnot Hconv.
  destruct (get lockfileFile "importers") eqn:Himp.
  2-7: rewrite convert_canonical in Hconv by (rewrite Himp; discriminate);
       injection Hconv as <-; rewrite Himp; discriminate.
  destruct (isObject lockfileFile) eqn:Hobj.
  2: rewrite convert_primitive in Hconv by assumption; discriminate.
  destruct (convert_legacy_runs _ Hnot Himp Hobj)
    as (final & Hrun & (_ & Hfinal & _) & _).
  rewrite Hrun in Hconv. injection Hconv as <-.
  intros Hundef. rewrite Hundef in Hfinal. discriminate.
Qed.

(** The root of the document as the loop finds it: [specifiers] is gone,
    [importers] is set, the rest is as it was parsed. *)
Lemma own_beforeLoop (lockfileFile : value) (k : string) :
  isObject lockfileFile = true ->
  k <> "importers" ->
  own (beforeLoop lockfileFile) k =
  if String.eqb k "specifiers" then None else own lockfileFile k.
Proof.
  intros Hobj Hk. unfold beforeLoop. rewrite own_delete.
  destruct (String.eqb k "specifiers"); [reflexivity|].
  rewrite own_set by assumption.
  destruct (String.eqb_spec k "importers"); [contradiction | reflexivity].
Qed.

End Normalization.

(** C5. Normalizing twice is normalizing once: when
    [convertFromLockfileFileMutable] returns a document, normalizing that
    document returns it again, and when it throws, so does the composite;
    and it returns for every mapping and every sequence. The list of
    dependency fields does not name [importers] itself. *)
Theorem convert_idempotent (C : Collaborators) :
  ~ In "importers" (DEPENDENCIES_FIELDS C) ->
  (forall d : value,
     rbind (convertFromLockfileFileMutable C d)
       (convertFromLockfileFileMutable C) =
     convertFromLockfileFileMutable C d) /\
  (forall d : value,
     isObject d = true ->
     exists d', convertFromLockfileFileMutable C d = Ok d').
Proof.
  intros Hnot.
  assert (Hruns : forall d, isObject d = true ->
            exists d', convertFromLockfileFileMutable C d = Ok d').
  { intros d Hobj.
    destruct (get d "importers") eqn:Himp.
    2-7: exists d; apply convert_canonical; rewrite Himp; discriminate.
    destruct (convert_legacy_runs C d Hnot Himp Hobj) as (d' & Hrun & _).
    exists d'. exact Hrun. }
  split; [|exact Hruns].
  intros d.
  destruct (convertFromLockfileFileMutable C d) as [d'|e] eqn:Hconv;
    [|reflexivity].
  simpl. apply convert_canonical.
  exact (convert_defines_importers C d d' Hnot Hconv).
Qed.

Lemma convert_idempotent_witness :
  rbind (convertFromLockfileFileMutable Demo.collaborators Demo.legacyDoc)
    (convertFromLockfileFileMutable Demo.collaborators) =
  convertFromLockfileFileMutable Demo.collaborators Demo.legacyDoc.
Proof.
  apply (convert_idempotent Demo.collaborators).
  simpl. intros [H|[H|[H|[]]]]; discriminate H.
Defined.

(** C6, as the code has it. After normalization the document has
    [importers]. If it had none before, no dependency field whose root
    value was not [null] is left at the root. (A field whose root value is
    [null] is not moved, and a document that came with [importers] keeps
    its root as it is.) *)
Theorem convert_importers_and_moved_fields (C : Collaborators)
  (d d' : value) :
  ~ In "importers" (DEPENDENCIES_FIELDS C) ->
  convertFromLockfileFileMutable C d = Ok d' ->
  get d' "importers" <> VUndefined /\
  (get d "importers" = VUndefined ->
   forall k : string,
     In k (DEPENDENCIES_FIELDS C) -> get d k <> VNull -> has d' k = false).
Proof.
  intros Hnot Hconv.
  split; [exact (convert_defines_importers C d d' Hnot Hconv)|].
  intros Himp k Hin Hnn.
  assert (Hk : k <> "importers") by (intros ->; contradiction).
  destruct (isObject d) eqn:Hobj.
  2: rewrite convert_primitive in Hconv by assumption; discriminate.
  destruct (convert_legacy_runs C d Hnot Himp Hobj)
    as (final & Hrun & _ & Hroot).
  rewrite Hrun in Hconv. injection Hconv as <-.
  destruct (Hroot k Hk) as [Habsent Hmoved].
  pose proof (own_beforeLoop d k Hobj Hk) as Hbefore.
  rewrite has_own.
  destruct (String.eqb k "specifiers").
  - rewrite (Habsent Hbefore). reflexivity.
  - rewrite (Hmoved Hin); [reflexivity|].
    rewrite get_own, Hbefore, <- get_own. exact Hnn.
Qed.

Lemma convert_importers_and_moved_fields_witness :
  exists d',
    convertFromLockfileFileMutable Demo.collaborators Demo.legacyDoc = Ok d' /\
    get d' "importers" <> VUndefined /\
    has d' "dependencies" = false.
Proof.
  eexists. split; [reflexivity|].
  assert (Hnot : ~ In "importers" (DEPENDENCIES_FIELDS Demo.collaborators))
    by (simpl; intros [H|[H|[H|[]]]]; discriminate H).
  pose proof (convert_importers_and_moved_fields Demo.collaborators
                Demo.legacyDoc _ Hnot eq_refl) as [Himp Hmoved].
  split; [exact Himp|].
  apply Hmoved; [reflexivity | simpl; auto | discriminate].
Defined.

(** C6 as stated fails: [devDependencies: null] at the root of a document
    without [importers] is still at the root after normalization. *)
Lemma convert_leaves_null_field :
  In "devDependencies" (DEPENDENCIES_FIELDS Demo.collaborators) /\
  get Demo.legacyDoc "importers" = VUndefined /\
  exists d',
    convertFromLockfileFileMutable Demo.collaborators Demo.legacyDoc = Ok d' /\
    has d' "devDependencies" = true.
Proof.
  split; [simpl; auto|]. split; [reflexivity|].
  eexists. split; reflexivity.
Qed.

(** C7. A document that has [importers] is returned as it is. *)
Theorem convert_canonical_unchanged (C : Collaborators) (d : value) :
  get d "importers" <> VUndefined ->
  convertFromLockfileFileMutable C d = Ok d.
Proof.
  intros Himp. unfold convertFromLockfileFileMutable.
  destruct (get d "importers") eqn:E.
  - congruence.
  - reflexivity.
  - reflexivity.
  - reflexivity.
  - reflexivity.
  - reflexivity.
  - reflexivity.
Qed.

Lemma convert_canonical_unchanged_witness :
  convertFromLockfileFileMutable Demo.collaborators Demo.canonicalDoc =
  Ok Demo.canonicalDoc.
Proof.
  apply (convert_canonical_unchanged Demo.collaborators Demo.canonicalDoc).
  simpl. discriminate.
Defined.

(** ** Logged computations *)

Lemma bind_ret {A B : Type} (a : A) (f : A -> M B) : bind (ret a) f = f a.
Proof. unfold bind, ret. destruct (f a). reflexivity. Qed.

Lemma bind_call_ok {A B : Type} (a : A) (f : A -> M B) :
  bind (call (Ok a)) f = f a.
Proof. apply bind_ret. Qed.

(** ** [some] *)

Lemma some_none {A : Type} (f : A -> M bool) (xs : list A) :
  (forall x, In x xs -> f x = ([], Ok false)) ->
  some f xs = ([], Ok false).
Proof.
  induction xs as [|x rest IH]; intros Hall; simpl.
  - reflexivity.
  - rewrite (Hall x (or_introl eq_refl)).
    change (@nil logEntry, @Ok error bool false) with (ret false).
    rewrite bind_ret. apply IH. intros y Hy. apply Hall. right. exact Hy.
Qed.

Lemma some_first {A : Type} (f : A -> M bool) (pre post : list A) (x : A)
  (l : list logEntry) :
  (forall y, In y pre -> f y = ([], Ok false)) ->
  f x = (l, Ok true) ->
  some f (pre ++ x :: post) = (l, Ok true).
Proof.
  induction pre as [|y pre IH]; intros Hpre Hx; simpl.
  - rewrite Hx. simpl. rewrite app_nil_r. reflexivity.
  - rewrite (Hpre y (or_introl eq_refl)).
    change (@nil logEntry, @Ok error bool false) with (ret false).
    rewrite bind_ret. apply IH; [|exact Hx].
    intros z Hz. apply Hpre. right. exact Hz.
Qed.

(** ** The compatibility evaluation *)

Section Gate.

Context (C : Collaborators).

Lemma matches_other_major (lockfile : value)
  (lockfileSemver prefix wantedVersion : string) (m : N) :
  semver_major C lockfileSemver = Ok m ->
  otherMajor C m wantedVersion ->
  wantedVersionMatches C lockfile lockfileSemver prefix wantedVersion =
  ([], Ok false).
Proof.
  intros Hm (w & Hw & Hne). unfold wantedVersionMatches.
  rewrite Hm, Hw, !bind_call_ok.
  destruct (N.eqb_spec m w) as [->|_]; [contradiction | reflexivity].
Qed.

Lemma matches_quietly (lockfile : value)
  (lockfileSemver prefix wantedVersion : string) (m : N) :
  semver_major C lockfileSemver = Ok m ->
  sameMajor C m wantedVersion ->
  strictEqString (get lockfile "lockfileVersion") "6.1" = true \/
  semver_gt C lockfileSemver (comverToSemver C wantedVersion) = Ok false ->
  wantedVersionMatches C lockfile lockfileSemver prefix wantedVersion =
  ([], Ok true).
Proof.
  intros Hm Hw Hquiet. unfold wantedVersionMatches, sameMajor in *.
  rewrite Hm, Hw, !bind_call_ok, N.eqb_refl. simpl negb. cbv iota.
  destruct (strictEqString (get lockfile "lockfileVersion") "6.1").
  - reflexivity.
  - destruct Hquiet as [Hcarve|Hgt]; [discriminate|].
    simpl negb. cbv iota. rewrite Hgt. reflexivity.
Qed.

Lemma matches_with_warning (lockfile : value)
  (lockfileSemver prefix wantedVersion : string) (m : N) :
  semver_major C lockfileSemver = Ok m ->
  sameMajor C m wantedVersion ->
  strictEqString (get lockfile "lockfileVersion") "6.1" = false ->
  semver_gt C lockfileSemver (comverToSemver C wantedVersion) = Ok true ->
  wantedVersionMatches C lockfile lockfileSemver prefix wantedVersion =
  ([LogWarn (downgradeWarning C wantedVersion) prefix], Ok true).
Proof.
  intros Hm Hw Hraw Hgt. unfold wantedVersionMatches, sameMajor in *.
  rewrite Hm, Hw, !bind_call_ok, N.eqb_refl, Hraw. simpl negb. cbv iota.
  rewrite Hgt. reflexivity.
Qed.

(** The first member with the document's major component, when every
    member has a major component and one has the document's. *)
Lemma first_sameMajor (m : N) (wanted : list string) :
  (forall w, In w wanted ->
     exists n, semver_major C (comverToSemver C w) = Ok n) ->
  (exists w, In w wanted /\ sameMajor C m w) ->
  exists pre w post,
    wanted = (pre ++ w :: post)%list /\
    (forall p, In p pre -> otherMajor C m p) /\
    sameMajor C m w.
Proof.
  induction wanted as [|x rest IH]; intros Hall (w & Hin & Hw).
  - destruct Hin.
  - destruct (Hall x (or_introl eq_refl)) as (n & Hn).
    destruct (N.eq_dec n m) as [->|Hne].
    + exists [], x, rest. split; [reflexivity|]. split; [intros p []|exact Hn].
    + assert (Hrest : exists w, In w rest /\ sameMajor C m w).
      { destruct Hin as [<-|Hin].
        - unfold sameMajor in Hw. congruence.
        - exists w. split; assumption. }
      destruct (IH (fun y Hy => Hall y (or_intror Hy)) Hrest)
        as (pre & y & post & -> & Hpre & Hy).
      exists (x :: pre), y, post. split; [reflexivity|]. split; [|exact Hy].
      intros p [<-|Hp]; [exists n; split; assumption | apply Hpre; exact Hp].
Qed.

(** The evaluation hands back the pair it was given or the absent
    outcome, nothing else. *)
Lemma gate_returns (lockfilePath prefix : string) (opts : ReadOpts)
  (lockfile : value) (hadConflicts : bool) (l : list logEntry)
  (r : ReadResult) :
  compatibilityGate C lockfilePath prefix opts lockfile hadConflicts =
  (l, Ok r) ->
  r = {| lockfile := lockfile; hadConflicts := hadConflicts |} \/
  r = {| lockfile := VNull; hadConflicts := false |}.
Proof.
  unfold compatibilityGate.
  match goal with
  | |- bind ?c _ = _ -> _ => destruct c as [l0 [[|]|e]]
  end; simpl.
  - intros H. injection H as _ <-. left. reflexivity.
  - destruct (ignoreIncompatible opts); simpl; intros H.
    + injection H as _ <-. right. reflexivity.
    + discriminate H.
  - discriminate.
Qed.

Lemma gate_accepts (lockfilePath prefix : string) (opts : ReadOpts)
  (lockfile : value) (hadConflicts : bool) (token : string)
  (wanted : list string) (l : list logEntry) :
  truthy lockfile = true ->
  lockfileToken lockfile = Ok token ->
  wantedVersions opts = Some wanted ->
  wanted <> [] ->
  some (wantedVersionMatches C lockfile (comverToSemver C token) prefix)
    wanted = (l, Ok true) ->
  compatibilityGate C lockfilePath prefix opts lockfile hadConflicts =
  (l, Ok {| lockfile := lockfile; hadConflicts := hadConflicts |}).
Proof.
  intros Ht Htok Hw Hne Hsome. unfold compatibilityGate.
  rewrite Ht, Htok, bind_call_ok, Hw.
  destruct wanted as [|w ws]; [congruence|].
  simpl Nat.eqb. cbv iota. rewrite Hsome. simpl. rewrite app_nil_r.
  reflexivity.
Qed.

Lemma gate_rejects (lockfilePath prefix : string) (opts : ReadOpts)
  (lockfile : value) (hadConflicts : bool) (token : string) (m : N)
  (wanted : list string) :
  wantedVersions opts = Some wanted ->
  wanted <> [] ->
  lockfileToken lockfile = Ok token ->
  semver_major C (comverToSemver C token) = Ok m ->
  (forall w, In w wanted -> otherMajor C m w) ->
  compatibilityGate C lockfilePath prefix opts lockfile hadConflicts =
  if ignoreIncompatible opts
  then ([LogWarn ("Ignoring not compatible lockfile at " ++ lockfilePath)
           prefix],
        Ok {| lockfile := VNull; hadConflicts := false |})
  else ([], Err (LockfileBreakingChangeError lockfilePath)).
Proof.
  intros Hw Hne Htok Hm Hall. unfold compatibilityGate.
  assert (Hacc :
    (if truthy lockfile
     then (token0 <- call (lockfileToken lockfile) ;;
           match wantedVersions opts with
           | Some wanted0 =>
               if Nat.eqb (List.length wanted0) 0 then ret true
               else some (wantedVersionMatches C lockfile
                            (comverToSemver C token0) prefix) wanted0
           | None => ret true
           end)%M
     else ret false) = ret false).
  { destruct (truthy lockfile); [|reflexivity].
    rewrite Htok, bind_call_ok, Hw.
    destruct wanted as [|w ws]; [congruence|].
    simpl Nat.eqb. cbv iota.
    apply some_none. intros x Hx.
    apply (matches_other_major _ _ _ _ m Hm). apply Hall. exact Hx. }
  rewrite Hacc, bind_ret.
  destruct (ignoreIncompatible opts); reflexivity.
Qed.

End Gate.

(** ** The claims about the compatibility evaluation *)

(** C4. With [wantedVersions] left out or empty the evaluation accepts
    whatever the format version is: the document comes back with the
    conflict flag it came with, nothing is logged and nothing is thrown. *)
Theorem gate_without_wanted_versions (C : Collaborators)
  (lockfilePath prefix : string) (opts : ReadOpts) (lockfile : value)
  (hadConflicts : bool) (token : string) :
  truthy lockfile = true ->
  lockfileToken lockfile = Ok token ->
  wantedVersions opts = None \/ wantedVersions opts = Some [] ->
  compatibilityGate C lockfilePath prefix opts lockfile hadConflicts =
  ([], Ok {| lockfile := lockfile; hadConflicts := hadConflicts |}).
Proof.
  intros Ht Htok Hw. unfold compatibilityGate.
  rewrite Ht, Htok, bind_call_ok.
  destruct Hw as [-> | ->]; reflexivity.
Qed.

Lemma gate_without_wanted_versions_witness :
  compatibilityGate Demo.collaborators "/newer/pnpm-lock.yaml" "/newer"
    (Demo.opts (Some []) false) Demo.newerDoc false =
  ([], Ok {| lockfile := Demo.newerDoc; hadConflicts := false |}).
Proof.
  apply (gate_without_wanted_versions Demo.collaborators
           "/newer/pnpm-lock.yaml" "/newer" (Demo.opts (Some []) false)
           Demo.newerDoc false "6.3").
  - reflexivity.
  - reflexivity.
  - right. reflexivity.
Defined.

(** C2, as the code has it. [some] stops at the first member of
    [wantedVersions] that has the document's major component, and that
    member alone decides about the warning: when the document's expanded
    version does not exceed that member's, or the raw version is ['6.1'],
    the document is accepted and nothing is logged. *)
Theorem gate_first_same_major_not_exceeded (C : Collaborators)
  (lockfilePath prefix : string) (opts : ReadOpts) (lockfile : value)
  (hadConflicts : bool) (token : string) (m : N)
  (pre post : list string) (w : string) :
  truthy lockfile = true ->
  lockfileToken lockfile = Ok token ->
  semver_major C (comverToSemver C token) = Ok m ->
  wantedVersions opts = Some (pre ++ w :: post)%list ->
  (forall p, In p pre -> otherMajor C m p) ->
  sameMajor C m w ->
  strictEqString (get lockfile "lockfileVersion") "6.1" = true \/
  semver_gt C (comverToSemver C token) (comverToSemver C w) = Ok false ->
  compatibilityGate C lockfilePath prefix opts lockfile hadConflicts =
  ([], Ok {| lockfile := lockfile; hadConflicts := hadConflicts |}).
Proof.
  intros Ht Htok Hm Hw Hpre Hsame Hquiet.
  apply (gate_accepts C _ _ _ _ _ token (pre ++ w :: post)%list);
    try assumption.
  - destruct pre; discriminate.
  - apply some_first.
    + intros p Hp. apply (matches_other_major C _ _ _ _ m Hm).
      apply Hpre. exact Hp.
    + apply (matches_quietly C _ _ _ _ m Hm Hsame Hquiet).
Qed.

Lemma gate_first_same_major_not_exceeded_witness :
  compatibilityGate Demo.collaborators "/newer/pnpm-lock.yaml" "/newer"
    (Demo.opts (Some ["5.4"; "6.5"; "6.0"]) false) Demo.newerDoc false =
  ([], Ok {| lockfile := Demo.newerDoc; hadConflicts := false |}).
Proof.
  apply (gate_first_same_major_not_exceeded Demo.collaborators
           "/newer/pnpm-lock.yaml" "/newer"
           (Demo.opts (Some ["5.4"; "6.5"; "6.0"]) false)
           Demo.newerDoc false "6.3" 6%N ["5.4"] ["6.0"] "6.5").
  - reflexivity.
  - reflexivity.
  - reflexivity.
  - reflexivity.
  - intros p [<-|[]]. exists 5%N. split; [reflexivity | discriminate].
  - reflexivity.
  - right. reflexivity.
Defined.

(** C2 as stated fails. The document's version 6.3 has the major
    component of the acceptable version 6.5 and does not exceed it, yet
    with 6.0 listed before 6.5 the downgrade warning is logged. *)
Lemma gate_warns_before_later_member :
  In "6.5" ["6.0"; "6.5"] /\
  lockfileToken Demo.newerDoc = Ok "6.3" /\
  semver_major Demo.collaborators
    (comverToSemver Demo.collaborators "6.3") = Ok 6%N /\
  semver_major Demo.collaborators
    (comverToSemver Demo.collaborators "6.5") = Ok 6%N /\
  semver_gt Demo.collaborators (comverToSemver Demo.collaborators "6.3")
    (comverToSemver Demo.collaborators "6.5") = Ok false /\
  compatibilityGate Demo.collaborators "/newer/pnpm-lock.yaml" "/newer"
    (Demo.opts (Some ["6.0"; "6.5"]) false) Demo.newerDoc false =
  ([LogWarn (downgradeWarning Demo.collaborators "6.0") "/newer"],
   Ok {| lockfile := Demo.newerDoc; hadConflicts := false |}) /\
  _read Demo.collaborators "/newer/pnpm-lock.yaml" "/newer"
    (Demo.opts (Some ["6.0"; "6.5"]) false) =
  ([LogWarn
      ("Your pnpm-lock.yaml was generated by a newer version of pnpm. " ++
       "It is a compatible version but it might get downgraded to " ++
       "version 6.0") "/newer"],
   Ok {| lockfile := Demo.newerDoc; hadConflicts := false |}).
Proof.
  repeat split; try reflexivity. simpl. auto.
Qed.

(** C3. The members of [wantedVersions] are versions, and at least one
    has the document's major component. When the document's expanded
    version exceeds that of every such member and its raw version is not
    ['6.1'], the evaluation logs one downgrade warning, naming a member
    with the document's major component, and still returns the document
    with the conflict flag it came with. *)
Theorem gate_newer_than_wanted (C : Collaborators)
  (lockfilePath prefix : string) (opts : ReadOpts) (lockfile : value)
  (hadConflicts : bool) (token : string) (m : N) (wanted : list string) :
  truthy lockfile = true ->
  lockfileToken lockfile = Ok token ->
  semver_major C (comverToSemver C token) = Ok m ->
  wantedVersions opts = Some wanted ->
  (forall w, In w wanted ->
     exists n, semver_major C (comverToSemver C w) = Ok n) ->
  (exists w, In w wanted /\ sameMajor C m w) ->
  (forall w, In w wanted -> sameMajor C m w ->
     semver_gt C (comverToSemver C token) (comverToSemver C w) = Ok true) ->
  strictEqString (get lockfile "lockfileVersion") "6.1" = false ->
  exists w,
    In w wanted /\ sameMajor C m w /\
    compatibilityGate C lockfilePath prefix opts lockfile hadConflicts =
    ([LogWarn (downgradeWarning C w) prefix],
     Ok {| lockfile := lockfile; hadConflicts := hadConflicts |}).
Proof.
  intros Ht Htok Hm Hw Hall Hex Hgt Hraw.
  destruct (first_sameMajor C m wanted Hall Hex)
    as (pre & w & post & -> & Hpre & Hsame).
  assert (Hin : In w (pre ++ w :: post))
    by (apply in_or_app; right; left; reflexivity).
  exists w. split; [exact Hin|]. split; [exact Hsame|].
  apply (gate_accepts C _ _ _ _ _ token (pre ++ w :: post)%list);
    try assumption.
  - destruct pre; discriminate.
  - apply some_first.
    + intros p Hp. apply (matches_other_major C _ _ _ _ m Hm).
      apply Hpre. exact Hp.
    + apply (matches_with_warning C _ _ _ _ m Hm Hsame Hraw).
      apply Hgt; assumption.
Qed.

Lemma gate_newer_than_wanted_witness :
  exists w,
    In w ["5.4"; "6.0"; "6.1"] /\ sameMajor Demo.collaborators 6%N w /\
    compatibilityGate Demo.collaborators "/newer/pnpm-lock.yaml" "/newer"
      (Demo.opts (Some ["5.4"; "6.0"; "6.1"]) false) Demo.newerDoc false =
    ([LogWarn (downgradeWarning Demo.collaborators w) "/newer"],
     Ok {| lockfile := Demo.newerDoc; hadConflicts := false |}).
Proof.
  apply (gate_newer_than_wanted Demo.collaborators
           "/newer/pnpm-lock.yaml" "/newer"
           (Demo.opts (Some ["5.4"; "6.0"; "6.1"]) false)
           Demo.newerDoc false "6.3" 6%N ["5.4"; "6.0"; "6.1"]).
  - reflexivity.
  - reflexivity.
  - reflexivity.
  - reflexivity.
  - intros w [<-|[<-|[<-|[]]]]; eexists; reflexivity.
  - exists "6.0". split; [simpl; auto | reflexivity].
  - intros w [<-|[<-|[<-|[]]]] _; reflexivity.
  - reflexivity.
Defined.

(** ** The claims about [_read] *)

Section ReadSteps.

Context (C : Collaborators).

Lemma read_parsed (lockfilePath prefix : string) (opts : ReadOpts)
  (content : string) (lockfile : value) :
  readFileSync C lockfilePath = Ok content ->
  parseLockfile C (stripBom C content) = Ok lockfile ->
  _read C lockfilePath prefix opts =
  compatibilityGate C lockfilePath prefix opts lockfile false.
Proof. intros Hread Hparse. unfold _read. rewrite Hread, Hparse. reflexivity. Qed.

Lemma read_merged (lockfilePath prefix : string) (opts : ReadOpts)
  (content : string) (err : JsError) (merged lockfile : value) :
  readFileSync C lockfilePath = Ok content ->
  parseLockfile C (stripBom C content) = Err err ->
  autofixPermitted opts = true ->
  isDiff C (stripBom C content) = true ->
  autofixMergeConflicts C (stripBom C content) = Ok merged ->
  convertFromLockfileFileMutable C merged = Ok lockfile ->
  _read C lockfilePath prefix opts =
  bind
    (logger_info
       ("Merge conflict detected in " ++ WANTED_LOCKFILE C ++
        " and successfully merged") prefix)
    (fun _ => compatibilityGate C lockfilePath prefix opts lockfile true).
Proof.
  intros Hread Hparse Hfix Hdiff Hmerge Hconv. unfold _read.
  rewrite Hread, Hparse, Hfix, Hdiff. simpl orb. cbv iota.
  rewrite Hmerge, bind_call_ok, Hconv, bind_call_ok. reflexivity.
Qed.

End ReadSteps.

(** C9. When reading the file fails with [ENOENT], [_read] returns the
    absent outcome, [lockfile: null] and [hadConflicts: false], and logs
    nothing; when it fails with anything else, [_read] throws that very
    error. *)
Theorem read_missing_file_or_io_failure (C : Collaborators)
  (lockfilePath prefix : string) (opts : ReadOpts) (err : JsError) :
  readFileSync C lockfilePath = Err err ->
  (code err = Some "ENOENT" ->
   _read C lockfilePath prefix opts =
   ([], Ok {| lockfile := VNull; hadConflicts := false |})) /\
  (code err <> Some "ENOENT" ->
   _read C lockfilePath prefix opts = ([], Err (Thrown err))).
Proof.
  intros Hread. unfold _read. rewrite Hread. split.
  - intros ->. reflexivity.
  - intros Hcode. destruct (code err) as [c|]; [|reflexivity].
    destruct (String.eqb_spec c "ENOENT") as [->|_];
      [congruence | reflexivity].
Qed.

Lemma read_missing_file_or_io_failure_witness :
  _read Demo.collaborators "/missing/pnpm-lock.yaml" "/missing"
    (Demo.opts None false) =
  ([], Ok {| lockfile := VNull; hadConflicts := false |}) /\
  _read Demo.collaborators "/locked/pnpm-lock.yaml" "/locked"
    (Demo.opts None false) =
  ([], Err (Thrown (mkJsError (Some "EACCES") "EACCES: permission denied"))).
Proof.
  split.
  - apply (read_missing_file_or_io_failure Demo.collaborators
             "/missing/pnpm-lock.yaml" "/missing" (Demo.opts None false)
             (mkJsError (Some "ENOENT") "ENOENT: no such file or directory"));
      reflexivity.
  - apply (read_missing_file_or_io_failure Demo.collaborators
             "/locked/pnpm-lock.yaml" "/locked" (Demo.opts None false)
             (mkJsError (Some "EACCES") "EACCES: permission denied"));
      [reflexivity | discriminate].
Defined.

(** C1. The file exists and parses, [wantedVersions] is not empty and
    none of its members has the major component of the document's format
    version. With [ignoreIncompatible] off, [_read] throws
    [LockfileBreakingChangeError] built from the lockfile path; with it
    on, [_read] logs a warning and returns [lockfile: null] without
    throwing. *)
Theorem read_incompatible (C : Collaborators)
  (lockfilePath prefix : string) (opts : ReadOpts) (content : string)
  (lockfile : value) (token : string) (m : N) (wanted : list string) :
  readFileSync C lockfilePath = Ok content ->
  parseLockfile C (stripBom C content) = Ok lockfile ->
  lockfileToken lockfile = Ok token ->
  semver_major C (comverToSemver C token) = Ok m ->
  wantedVersions opts = Some wanted ->
  wanted <> [] ->
  (forall w, In w wanted -> otherMajor C m w) ->
  (ignoreIncompatible opts = false ->
   _read C lockfilePath prefix opts =
   ([], Err (LockfileBreakingChangeError lockfilePath))) /\
  (ignoreIncompatible opts = true ->
   _read C lockfilePath prefix opts =
   ([LogWarn ("Ignoring not compatible lockfile at " ++ lockfilePath) prefix],
    Ok {| lockfile := VNull; hadConflicts := false |})).
Proof.
  intros Hread Hparse Htok Hm Hw Hne Hall.
  rewrite (read_parsed C _ prefix opts _ _ Hread Hparse).
  rewrite (gate_rejects C lockfilePath prefix opts lockfile false
             token m wanted Hw Hne Htok Hm Hall).
  split; intros ->; reflexivity.
Qed.

Lemma read_incompatible_witness :
  _read Demo.collaborators "/newer/pnpm-lock.yaml" "/newer"
    (Demo.opts (Some ["5.4"; "7.0"]) false) =
  ([], Err (LockfileBreakingChangeError "/newer/pnpm-lock.yaml")) /\
  _read Demo.collaborators "/newer/pnpm-lock.yaml" "/newer"
    (Demo.opts (Some ["5.4"; "7.0"]) true) =
  ([LogWarn "Ignoring not compatible lockfile at /newer/pnpm-lock.yaml"
      "/newer"],
   Ok {| lockfile := VNull; hadConflicts := false |}).
Proof.
  assert (Hall : forall w, In w ["5.4"; "7.0"] ->
                   otherMajor Demo.collaborators 6%N w).
  { intros w [<-|[<-|[]]].
    - exists 5%N. split; [reflexivity | discriminate].
    - exists 7%N. split; [reflexivity | discriminate]. }
  split.
  - apply (read_incompatible Demo.collaborators "/newer/pnpm-lock.yaml"
             "/newer" (Demo.opts (Some ["5.4"; "7.0"]) false)
             Demo.newerText Demo.newerDoc "6.3" 6%N ["5.4"; "7.0"]);
      try reflexivity; [discriminate | exact Hall].
  - apply (read_incompatible Demo.collaborators "/newer/pnpm-lock.yaml"
             "/newer" (Demo.opts (Some ["5.4"; "7.0"]) true)
             Demo.newerText Demo.newerDoc "6.3" 6%N ["5.4"; "7.0"]);
      try reflexivity; [discriminate | exact Hall].
Defined.

(** C8, as the code has it. The file exists and its text does not parse.
    If autofix is not permitted or the text has no conflict markers,
    [_read] throws the [BROKEN_LOCKFILE] error. If autofix is permitted,
    the text has conflict markers, the merge succeeds and its result
    normalizes, the merged document still goes through the compatibility
    evaluation: when that returns a document, [_read] returns the
    normalized merged document with [hadConflicts: true], having logged
    the merge. *)
Theorem read_unparseable (C : Collaborators)
  (lockfilePath prefix : string) (opts : ReadOpts) (content : string)
  (err : JsError) :
  readFileSync C lockfilePath = Ok content ->
  parseLockfile C (stripBom C content) = Err err ->
  (autofixPermitted opts = false \/ isDiff C (stripBom C content) = false ->
   _read C lockfilePath prefix opts =
   ([], Err (PnpmError "BROKEN_LOCKFILE"
               ("The lockfile at " ++ dquote ++ lockfilePath ++ dquote ++
                " is broken: " ++ message err)))) /\
  (autofixPermitted opts = true ->
   isDiff C (stripBom C content) = true ->
   forall (merged normalized : value) (l : list logEntry) (r : ReadResult),
     autofixMergeConflicts C (stripBom C content) = Ok merged ->
     convertFromLockfileFileMutable C merged = Ok normalized ->
     compatibilityGate C lockfilePath prefix opts normalized true =
     (l, Ok r) ->
     lockfile r <> VNull ->
     _read C lockfilePath prefix opts =
     (LogInfo ("Merge conflict detected in " ++ WANTED_LOCKFILE C ++
               " and successfully merged") prefix :: l,
      Ok {| lockfile := normalized; hadConflicts := true |})).
Proof.
  intros Hread Hparse. split.
  - intros Hno. unfold _read. rewrite Hread, Hparse.
    destruct Hno as [-> | ->]; [|rewrite orb_true_r]; reflexivity.
  - intros Hfix Hdiff merged normalized l r Hmerge Hconv Hgate Hdoc.
    rewrite (read_merged C _ prefix opts _ _ _ _
               Hread Hparse Hfix Hdiff Hmerge Hconv).
    destruct (gate_returns C _ _ _ _ _ _ _ Hgate) as [-> | ->].
    + unfold logger_info. simpl. rewrite Hgate. reflexivity.
    + simpl in Hdoc. congruence.
Qed.

Lemma read_unparseable_witness :
  _read Demo.collaborators "/broken/pnpm-lock.yaml" "/broken"
    (Demo.opts (Some ["6.0"]) false) =
  ([], Err (PnpmError "BROKEN_LOCKFILE"
              ("The lockfile at " ++ dquote ++ "/broken/pnpm-lock.yaml" ++
               dquote ++ " is broken: " ++ message Demo.syntaxError))) /\
  _read Demo.collaborators "/conflict/pnpm-lock.yaml" "/conflict"
    (Demo.opts (Some ["6.0"]) false) =
  ([LogInfo "Merge conflict detected in pnpm-lock.yaml and successfully merged"
      "/conflict"],
   Ok {| lockfile := Demo.canonicalDoc; hadConflicts := true |}).
Proof.
  split.
  - apply (read_unparseable Demo.collaborators "/broken/pnpm-lock.yaml"
             "/broken" (Demo.opts (Some ["6.0"]) false) Demo.brokenText
             Demo.syntaxError); try reflexivity.
    right. reflexivity.
  - apply (proj2 (read_unparseable Demo.collaborators
                    "/conflict/pnpm-lock.yaml" "/conflict"
                    (Demo.opts (Some ["6.0"]) false) Demo.conflictText
                    Demo.syntaxError eq_refl eq_refl)
             eq_refl eq_refl Demo.canonicalDoc Demo.canonicalDoc []
             {| lockfile := Demo.canonicalDoc; hadConflicts := true |});
      try reflexivity.
    discriminate.
Defined.

(** C8 as stated fails. The text has conflict markers, autofix is
    permitted and the merge succeeds, but the merged document has format
    version 6.0 where only 5.4 is acceptable: with [ignoreIncompatible]
    on [_read] returns [lockfile: null] and [hadConflicts: false], and
    with it off [_read] throws. *)
Lemma read_merged_then_incompatible :
  parseLockfile Demo.collaborators Demo.conflictText = Err Demo.syntaxError /\
  isDiff Demo.collaborators Demo.conflictText = true /\
  autofixMergeConflicts Demo.collaborators Demo.conflictText =
  Ok Demo.canonicalDoc /\
  convertFromLockfileFileMutable Demo.collaborators Demo.canonicalDoc =
  Ok Demo.canonicalDoc /\
  _read Demo.collaborators "/conflict/pnpm-lock.yaml" "/conflict"
    (Demo.opts (Some ["5.4"]) true) =
  ([LogInfo "Merge conflict detected in pnpm-lock.yaml and successfully merged"
      "/conflict";
    LogWarn "Ignoring not compatible lockfile at /conflict/pnpm-lock.yaml"
      "/conflict"],
   Ok {| lockfile := VNull; hadConflicts := false |}) /\
  _read Demo.collaborators "/conflict/pnpm-lock.yaml" "/conflict"
    (Demo.opts (Some ["5.4"]) false) =
  ([LogInfo "Merge conflict detected in pnpm-lock.yaml and successfully merged"
      "/conflict"],
   Err (LockfileBreakingChangeError "/conflict/pnpm-lock.yaml")).
Proof. repeat split. Qed.

(** C10. Conflicts were found and merged, but no member of the non-empty
    [wantedVersions] has the major component of the merged document's
    format version, and [ignoreIncompatible] is on: [_read] returns
    [lockfile: null] with [hadConflicts: false], after logging the merge
    and the warning. *)
Theorem read_merged_incompatible_ignored (C : Collaborators)
  (lockfilePath prefix : string) (opts : ReadOpts) (content : string)
  (err : JsError) (merged lockfile : value) (token : string) (m : N)
  (wanted : list string) :
  readFileSync C lockfilePath = Ok content ->
  parseLockfile C (stripBom C content) = Err err ->
  autofixPermitted opts = true ->
  isDiff C (stripBom C content) = true ->
  autofixMergeConflicts C (stripBom C content) = Ok merged ->
  convertFromLockfileFileMutable C merged = Ok lockfile ->
  lockfileToken lockfile = Ok token ->
  semver_major C (comverToSemver C token) = Ok m ->
  wantedVersions opts = Some wanted ->
  wanted <> [] ->
  (forall w, In w wanted -> otherMajor C m w) ->
  ignoreIncompatible opts = true ->
  _read C lockfilePath prefix opts =
  ([LogInfo ("Merge conflict detected in " ++ WANTED_LOCKFILE C ++
             " and successfully merged") prefix;
    LogWarn ("Ignoring not compatible lockfile at " ++ lockfilePath) prefix],
   Ok {| lockfile := VNull; hadConflicts := false |}).
Proof.
  intros Hread Hparse Hfix Hdiff Hmerge Hconv Htok Hm Hw Hne Hall Hignore.
  rewrite (read_merged C _ prefix opts _ _ _ _
             Hread Hparse Hfix Hdiff Hmerge Hconv).
  unfold logger_info. simpl.
  rewrite (gate_rejects C lockfilePath prefix opts lockfile true
             token m wanted Hw Hne Htok Hm Hall), Hignore.
  reflexivity.
Qed.

Lemma read_merged_incompatible_ignored_witness :
  _read Demo.collaborators "/conflict/pnpm-lock.yaml" "/conflict"
    (Demo.opts (Some ["5.4"]) true) =
  ([LogInfo "Merge conflict detected in pnpm-lock.yaml and successfully merged"
      "/conflict";
    LogWarn "Ignoring not compatible lockfile at /conflict/pnpm-lock.yaml"
      "/conflict"],
   Ok {| lockfile := VNull; hadConflicts := false |}).
Proof.
  apply (read_merged_incompatible_ignored Demo.collaborators
           "/conflict/pnpm-lock.yaml" "/conflict"
           (Demo.opts (Some ["5.4"]) true) Demo.conflictText
           Demo.syntaxError Demo.canonicalDoc Demo.canonicalDoc "6.0" 6%N
           ["5.4"]); try reflexivity.
  - discriminate.
  - intros w [<-|[]]. exists 5%N. split; [reflexivity | discriminate].
Defined.

(** ** The pipeline *)

(** With the single candidate name, [_readWantedLockfile] is one [_read]
    of the wanted lockfile, with autofix permitted. *)
Lemma readWantedLockfile_single_read (C : Collaborators) (pkgPath : string)
  (opts : ReadOpts) :
  _readWantedLockfile C pkgPath opts =
  _read C (path_join C pkgPath (WANTED_LOCKFILE C)) pkgPath (withAutofix opts).
Proof.
  unfold _readWantedLockfile. simpl.
  destruct (_read C (path_join C pkgPath (WANTED_LOCKFILE C)) pkgPath
              (withAutofix opts)) as [l [r|e]]; simpl; [|reflexivity].
  destruct (truthy (lockfile r)); simpl; rewrite app_nil_r; reflexivity.
Qed.

(** A legacy lockfile read through the public entry point. *)
Example readWantedLockfile_legacy :
  readWantedLockfile Demo.collaborators "/legacy"
    (Demo.opts (Some ["5.4"]) false) =
  ([], Ok (VObj
             [("lockfileVersion", VNum "5.4"); ("devDependencies", VNull);
              ("importers",
               VObj [(".",
                      VObj [("specifiers", VObj []);
                            ("dependenciesMeta", VUndefined);
                            ("publishDirectory", VUndefined);
                            ("optionalDependencies", VUndefined);
                            ("dependencies", VObj [])])])])).
Proof. reflexivity. Qed.

(** * Further properties *)

(** ** Every way the compatibility evaluation can end *)

Section GateOutcomes.

Context (C : Collaborators).

Lemma matches_outcomes (lockfile : value)
  (lockfileSemver prefix wantedVersion : string) (l : list logEntry)
  (r : result error bool) :
  wantedVersionMatches C lockfile lockfileSemver prefix wantedVersion =
  (l, r) ->
  (l = [] /\
   (r = Ok false \/ r = Ok true \/ exists err, r = Err (Thrown err))) \/
  (l = [LogWarn (downgradeWarning C wantedVersion) prefix] /\ r = Ok true /\
   strictEqString (get lockfile "lockfileVersion") "6.1" = false).
Proof.
  unfold wantedVersionMatches.
  destruct (semver_major C lockfileSemver) as [m|e]; simpl;
    [|intros H; injection H as <- <-; left; eauto].
  destruct (semver_major C (comverToSemver C wantedVersion)) as [w|e]; simpl;
    [|intros H; injection H as <- <-; left; eauto].
  destruct (N.eqb m w); simpl;
    [|intros H; injection H as <- <-; left; eauto].
  destruct (strictEqString (get lockfile "lockfileVersion") "6.1"); simpl;
    [intros H; injection H as <- <-; left; eauto|].
  destruct (semver_gt C lockfileSemver (comverToSemver C wantedVersion))
    as [[|]|e]; simpl; intros H; injection H as <- <-.
  - right. auto.
  - left. eauto.
  - left. eauto.
Qed.

Lemma some_matches_outcomes (lockfile : value) (lockfileSemver prefix : string)
  (wanted : list string) (l : list logEntry) (r : result error bool) :
  some (wantedVersionMatches C lockfile lockfileSemver prefix) wanted =
  (l, r) ->
  (l = [] /\
   (r = Ok false \/ r = Ok true \/ exists err, r = Err (Thrown err))) \/
  (exists w,
     In w wanted /\ l = [LogWarn (downgradeWarning C w) prefix] /\
     r = Ok true /\
     strictEqString (get lockfile "lockfileVersion") "6.1" = false).
Proof.
  revert l r. induction wanted as [|x rest IH]; intros l r; simpl.
  - intros H. injection H as <- <-. left. auto.
  - destruct (wantedVersionMatches C lockfile lockfileSemver prefix x)
      as [lx rx] eqn:Hx.
    destruct (matches_outcomes _ _ _ _ _ _ Hx)
      as [(-> & [-> | [-> | (err & ->)]]) | (-> & -> & Hraw)].
    + change (@nil logEntry, @Ok error bool false) with (ret false).
      rewrite bind_ret. intros H.
      destruct (IH _ _ H) as [Hquiet | (w & Hin & Hrest)].
      * left. exact Hquiet.
      * right. exists w. split; [right; exact Hin | exact Hrest].
    + simpl. intros H. injection H as <- <-. left. auto.
    + simpl. intros H. injection H as <- <-. left. eauto.
    + simpl. intros H. injection H as <- <-.
      right. exists x. auto.
Qed.

(** The evaluation ends in one of five ways: it accepts silently; it
    accepts with one downgrade warning; it gives the absent outcome with
    the ignore notice; it throws the breaking-change error; it lets an
    error of [toString] or [semver] through. *)
Lemma gate_outcomes (lockfilePath prefix : string) (opts : ReadOpts)
  (lockfile : value) (hadConflicts : bool) (l : list logEntry)
  (r : result error ReadResult) :
  compatibilityGate C lockfilePath prefix opts lockfile hadConflicts =
  (l, r) ->
  (truthy lockfile = true /\ l = [] /\
   r = Ok {| lockfile := lockfile; hadConflicts := hadConflicts |}) \/
  (truthy lockfile = true /\
   strictEqString (get lockfile "lockfileVersion") "6.1" = false /\
   exists wanted w,
     wantedVersions opts = Some wanted /\ In w wanted /\
     l = [LogWarn (downgradeWarning C w) prefix] /\
     r = Ok {| lockfile := lockfile; hadConflicts := hadConflicts |}) \/
  (ignoreIncompatible opts = true /\
   l = [LogWarn (ignoreNotice lockfilePath) prefix] /\ r = Ok absent) \/
  (ignoreIncompatible opts = false /\ l = [] /\
   r = Err (LockfileBreakingChangeError lockfilePath)) \/
  (truthy lockfile = true /\ l = [] /\ exists err, r = Err (Thrown err)).
Proof.
  unfold compatibilityGate.
  assert (Hrejected :
    forall l r,
      (if ignoreIncompatible opts
       then (logger_warn ("Ignoring not compatible lockfile at " ++
                          lockfilePath) prefix ;;
             ret {| lockfile := VNull; hadConflicts := false |})%M
       else throw (LockfileBreakingChangeError lockfilePath)) = (l, r) ->
      (ignoreIncompatible opts = true /\
       l = [LogWarn (ignoreNotice lockfilePath) prefix] /\ r = Ok absent) \/
      (ignoreIncompatible opts = false /\ l = [] /\
       r = Err (LockfileBreakingChangeError lockfilePath))).
  { intros l0 r0. destruct (ignoreIncompatible opts); simpl;
      intros H; injection H as <- <-; auto. }
  destruct (truthy lockfile) eqn:Ht.
  2: { rewrite bind_ret. intros H.
       destruct (Hrejected _ _ H) as [Hi | Hb]; auto. }
  destruct (lockfileToken lockfile) as [token|e].
  2: { simpl. intros H. injection H as <- <-.
       do 4 right. split; [reflexivity|]. split; [reflexivity|]. eauto. }
  rewrite bind_call_ok.
  assert (Haccept :
    forall l r,
      bind (ret true)
        (fun accepted : bool =>
           if accepted
           then ret {| lockfile := lockfile; hadConflicts := hadConflicts |}
           else
             if ignoreIncompatible opts
             then (logger_warn ("Ignoring not compatible lockfile at " ++
                                lockfilePath) prefix ;;
                   ret {| lockfile := VNull; hadConflicts := false |})%M
             else throw (LockfileBreakingChangeError lockfilePath)) =
      (l, r) ->
      l = [] /\
      r = Ok {| lockfile := lockfile; hadConflicts := hadConflicts |}).
  { intros l0 r0. rewrite bind_ret. intros H. injection H as <- <-. auto. }
  destruct (wantedVersions opts) as [wanted|] eqn:Hw.
  2: { intros H. destruct (Haccept _ _ H) as [-> ->]. left. auto. }
  destruct (Nat.eqb (List.length wanted) 0).
  { intros H. destruct (Haccept _ _ H) as [-> ->]. left. auto. }
  destruct (some (wantedVersionMatches C lockfile (comverToSemver C token)
                    prefix) wanted) as [ls rs] eqn:Hsome.
  destruct (some_matches_outcomes _ _ _ _ _ _ Hsome)
    as [(-> & [-> | [-> | (err & ->)]]) | (w & Hin & -> & -> & Hraw)].
  - change (@nil logEntry, @Ok error bool false) with (ret false).
    rewrite bind_ret. intros H.
    destruct (Hrejected _ _ H) as [Hi | Hb]; auto.
  - intros H. destruct (Haccept _ _ H) as [-> ->]. left. auto.
  - simpl. intros H. injection H as <- <-.
    do 4 right. split; [reflexivity|]. split; [reflexivity|]. eauto.
  - simpl. intros H. injection H as <- <-.
    right. left. split; [reflexivity|]. split; [exact Hraw|].
    exists wanted, w. auto.
Qed.

End GateOutcomes.

(** ** Every way through [_read] *)

Lemma read_paths (C : Collaborators) (lockfilePath prefix : string)
  (opts : ReadOpts) :
  ReadPath C lockfilePath prefix opts
    (fst (_read C lockfilePath prefix opts))
    (snd (_read C lockfilePath prefix opts)).
Proof.
  unfold _read.
  destruct (readFileSync C lockfilePath) as [content|err] eqn:Hread.
  2: { destruct (code err) as [c|] eqn:Hcode.
       - destruct (String.eqb_spec c "ENOENT") as [->|Hne]; simpl.
         + apply (PathMissing _ _ _ _ err); assumption.
         + apply (PathUnreadable _ _ _ _ err); [assumption|]. congruence.
       - simpl. apply (PathUnreadable _ _ _ _ err); [assumption|]. congruence. }
  destruct (parseLockfile C (stripBom C content)) as [parsed|err] eqn:Hparse.
  { apply (PathParsed _ _ _ _ content parsed); try assumption.
    apply surjective_pairing. }
  destruct (autofixPermitted opts) eqn:Hfix; simpl negb; simpl orb.
  2: { simpl. apply (PathBroken _ _ _ _ content err); auto. }
  destruct (isDiff C (stripBom C content)) eqn:Hdiff; simpl negb; cbv iota.
  2: { simpl. apply (PathBroken _ _ _ _ content err); auto. }
  destruct (autofixMergeConflicts C (stripBom C content)) as [merged|failure]
    eqn:Hmerge.
  2: { simpl. apply (PathMergeFailed _ _ _ _ content err failure);
         try assumption. rewrite Hmerge. reflexivity. }
  rewrite bind_call_ok.
  destruct (convertFromLockfileFileMutable C merged) as [normalized|failure]
    eqn:Hconv.
  2: { simpl. apply (PathMergeFailed _ _ _ _ content err failure);
         try assumption. rewrite Hmerge. simpl. exact Hconv. }
  rewrite bind_call_ok.
  destruct (compatibilityGate C lockfilePath prefix opts normalized true)
    as [l r] eqn:Hgate.
  unfold logger_info. simpl.
  apply (PathMerged _ _ _ _ content err merged normalized); assumption.
Qed.

Lemma read_path (C : Collaborators) (lockfilePath prefix : string)
  (opts : ReadOpts) (l : list logEntry) (r : result error ReadResult) :
  _read C lockfilePath prefix opts = (l, r) ->
  ReadPath C lockfilePath prefix opts l r.
Proof.
  intros H. pose proof (read_paths C lockfilePath prefix opts) as Hp.
  rewrite H in Hp. exact Hp.
Qed.

(** ** What [_read] returns *)

(** X1. Whatever [_read] returns is either the absent outcome,
    [lockfile: null] with [hadConflicts: false], or a document that is
    truthy: a [null] document never comes with [hadConflicts: true]. *)
Theorem read_returns_absent_or_document (C : Collaborators)
  (lockfilePath prefix : string) (opts : ReadOpts) (l : list logEntry)
  (r : ReadResult) :
  _read C lockfilePath prefix opts = (l, Ok r) ->
  r = absent \/ truthy (lockfile r) = true.
Proof.
  intros H. apply read_path in H.
  assert (Hgate : forall doc flag lg,
            compatibilityGate C lockfilePath prefix opts doc flag =
            (lg, Ok r) ->
            r = absent \/ truthy (lockfile r) = true).
  { intros doc flag lg Hg.
    destruct (gate_outcomes C _ _ _ _ _ _ _ Hg)
      as [(Ht & _ & Hr) | [(Ht & _ & ws & w & _ & _ & _ & Hr)
         | [(_ & _ & Hr) | [(_ & _ & Hr) | (_ & _ & e & Hr)]]]];
      try discriminate Hr; injection Hr as ->; auto. }
  inversion H; subst; eauto.
Qed.

Lemma read_returns_absent_or_document_witness :
  {| lockfile := Demo.canonicalDoc; hadConflicts := true |} = absent \/
  truthy Demo.canonicalDoc = true.
Proof.
  apply (read_returns_absent_or_document Demo.collaborators
           "/conflict/pnpm-lock.yaml" "/conflict" (Demo.opts None false)
           [LogInfo (mergeNotice Demo.collaborators) "/conflict"]
           {| lockfile := Demo.canonicalDoc; hadConflicts := true |}).
  reflexivity.
Defined.

(** X2. [_read] returns [hadConflicts: true] only on the repair path:
    the text did not parse, autofix was permitted, the text had conflict
    markers, the merge succeeded, the returned document is the normalized
    merge result, and the merge notice is the first thing logged. *)
Theorem read_hadConflicts_means_merged (C : Collaborators)
  (lockfilePath prefix : string) (opts : ReadOpts) (l : list logEntry)
  (r : ReadResult) :
  _read C lockfilePath prefix opts = (l, Ok r) ->
  hadConflicts r = true ->
  exists content err merged lg,
    readFileSync C lockfilePath = Ok content /\
    parseLockfile C (stripBom C content) = Err err /\
    autofixPermitted opts = true /\
    isDiff C (stripBom C content) = true /\
    autofixMergeConflicts C (stripBom C content) = Ok merged /\
    convertFromLockfileFileMutable C merged = Ok (lockfile r) /\
    l = LogInfo (mergeNotice C) prefix :: lg.
Proof.
  intros H Hflag. apply read_path in H.
  inversion H as [ err Hread Hcode
                 | err Hread Hcode
                 | content parsed lg rg Hread Hparse Hgate
                 | content err Hread Hparse Hno
                 | content err failure Hread Hparse Hfix Hdiff Hfail
                 | content err merged normalized lg rg
                     Hread Hparse Hfix Hdiff Hmerge Hconv Hgate ]; subst.
  - discriminate Hflag.
  - destruct (gate_returns C _ _ _ _ _ _ _ Hgate) as [-> | ->];
      discriminate Hflag.
  - destruct (gate_returns C _ _ _ _ _ _ _ Hgate) as [-> | ->];
      [|discriminate Hflag].
    exists content, err, merged, lg. simpl. auto 10.
Qed.

Lemma read_hadConflicts_means_merged_witness :
  exists content err merged lg,
    readFileSync Demo.collaborators "/conflict/pnpm-lock.yaml" = Ok content /\
    parseLockfile Demo.collaborators
      (stripBom Demo.collaborators content) = Err err /\
    autofixPermitted (Demo.opts None false) = true /\
    isDiff Demo.collaborators (stripBom Demo.collaborators content) = true /\
    autofixMergeConflicts Demo.collaborators
      (stripBom Demo.collaborators content) = Ok merged /\
    convertFromLockfileFileMutable Demo.collaborators merged =
    Ok Demo.canonicalDoc /\
    [LogInfo (mergeNotice Demo.collaborators) "/conflict"] =
    LogInfo (mergeNotice Demo.collaborators) "/conflict" :: lg.
Proof.
  apply (read_hadConflicts_means_merged Demo.collaborators
           "/conflict/pnpm-lock.yaml" "/conflict" (Demo.opts None false)
           [LogInfo (mergeNotice Demo.collaborators) "/conflict"]
           {| lockfile := Demo.canonicalDoc; hadConflicts := true |}).
  - reflexivity.
  - reflexivity.
Defined.

(** X3. A repair that fails is not reported as a broken lockfile: when
    the merge throws, or returns something normalization throws on,
    [_read] throws that very error, and nothing has been logged yet. *)
Theorem read_failed_merge_passes_through (C : Collaborators)
  (lockfilePath prefix : string) (opts : ReadOpts) (content : string)
  (err failure : JsError) :
  readFileSync C lockfilePath = Ok content ->
  parseLockfile C (stripBom C content) = Err err ->
  autofixPermitted opts = true ->
  isDiff C (stripBom C content) = true ->
  autofixMergeConflicts C (stripBom C content) = Err failure \/
  (exists merged,
     autofixMergeConflicts C (stripBom C content) = Ok merged /\
     convertFromLockfileFileMutable C merged = Err failure) ->
  _read C lockfilePath prefix opts = ([], Err (Thrown failure)).
Proof.
  intros Hread Hparse Hfix Hdiff Hfail. unfold _read.
  rewrite Hread, Hparse, Hfix, Hdiff. simpl orb. cbv iota.
  destruct Hfail as [Hmerge | (merged & Hmerge & Hconv)].
  - rewrite Hmerge. reflexivity.
  - rewrite Hmerge, bind_call_ok, Hconv. reflexivity.
Qed.

Lemma read_failed_merge_passes_through_witness :
  _read Scenes.failingMerge "/conflict/pnpm-lock.yaml" "/conflict"
    (Demo.opts None false) =
  ([], Err (Thrown Scenes.unmergeable)).
Proof.
  apply (read_failed_merge_passes_through Scenes.failingMerge
           "/conflict/pnpm-lock.yaml" "/conflict" (Demo.opts None false)
           Demo.conflictText Demo.syntaxError Scenes.unmergeable).
  - reflexivity.
  - reflexivity.
  - reflexivity.
  - reflexivity.
  - left. reflexivity.
Defined.

(** X4. [_read] throws [LockfileBreakingChangeError] only with
    [ignoreIncompatible] off, and only for the path it was asked to
    read. *)
Theorem read_breaking_change_not_ignored (C : Collaborators)
  (lockfilePath prefix : string) (opts : ReadOpts) (l : list logEntry)
  (p : string) :
  _read C lockfilePath prefix opts = (l, Err (LockfileBreakingChangeError p)) ->
  p = lockfilePath /\ ignoreIncompatible opts = false.
Proof.
  intros H. apply read_path in H.
  assert (Hgate : forall doc flag lg,
            compatibilityGate C lockfilePath prefix opts doc flag =
            (lg, Err (LockfileBreakingChangeError p)) ->
            p = lockfilePath /\ ignoreIncompatible opts = false).
  { intros doc flag lg Hg.
    destruct (gate_outcomes C _ _ _ _ _ _ _ Hg)
      as [(_ & _ & Hr) | [(_ & _ & ws & w & _ & _ & _ & Hr)
         | [(_ & _ & Hr) | [(Hi & _ & Hr) | (_ & _ & e & Hr)]]]];
      try discriminate Hr.
    injection Hr as ->. auto. }
  inversion H; subst; eauto.
Qed.

Lemma read_breaking_change_not_ignored_witness :
  "/newer/pnpm-lock.yaml" = "/newer/pnpm-lock.yaml" /\
  ignoreIncompatible (Demo.opts (Some ["5.4"]) false) = false.
Proof.
  apply (read_breaking_change_not_ignored Demo.collaborators
           "/newer/pnpm-lock.yaml" "/newer" (Demo.opts (Some ["5.4"]) false)
           [] "/newer/pnpm-lock.yaml").
  reflexivity.
Defined.



(** X6. [_read] logs at most the merge notice followed by at most one
    warning. A downgrade warning only accompanies a returned, truthy
    document; the ignore notice only accompanies the absent outcome. *)
Theorem read_log_shape (C : Collaborators)
  (lockfilePath prefix : string) (opts : ReadOpts) (l : list logEntry)
  (r : result error ReadResult) :
  _read C lockfilePath prefix opts = (l, r) ->
  exists notice warning,
    l = (notice ++ warning)%list /\
    (notice = [] \/ notice = [LogInfo (mergeNotice C) prefix]) /\
    (warning = [] \/
     (exists w doc,
        warning = [LogWarn (downgradeWarning C w) prefix] /\
        r = Ok doc /\ truthy (lockfile doc) = true) \/
     (warning = [LogWarn (ignoreNotice lockfilePath) prefix] /\
      r = Ok absent)).
Proof.
  intros H. apply read_path in H.
  assert (Hgate : forall doc flag lg rg,
            compatibilityGate C lockfilePath prefix opts doc flag =
            (lg, rg) ->
            lg = [] \/
            (exists w d,
               lg = [LogWarn (downgradeWarning C w) prefix] /\
               rg = Ok d /\ truthy (lockfile d) = true) \/
            (lg = [LogWarn (ignoreNotice lockfilePath) prefix] /\
             rg = Ok absent)).
  { intros doc flag lg rg Hg.
    destruct (gate_outcomes C _ _ _ _ _ _ _ Hg)
      as [(_ & -> & _) | [(Ht & _ & ws & w & _ & _ & -> & ->)
         | [(_ & -> & ->) | [(_ & -> & _) | (_ & -> & _)]]]]; auto.
    right. left. exists w. eexists. split; [reflexivity|].
    split; [reflexivity | exact Ht]. }
  inversion H as [ err Hread Hcode
                 | err Hread Hcode
                 | content parsed lg rg Hread Hparse Hg
                 | content err Hread Hparse Hno
                 | content err failure Hread Hparse Hfix Hdiff Hfail
                 | content err merged normalized lg rg
                     Hread Hparse Hfix Hdiff Hmerge Hconv Hg ]; subst.
  - exists [], []. auto.
  - exists [], []. auto.
  - exists [], l. split; [reflexivity|]. split; [auto|]. eapply Hgate, Hg.
  - exists [], []. auto.
  - exists [], []. auto.
  - exists [LogInfo (mergeNotice C) prefix], lg.
    split; [reflexivity|]. split; [auto|]. eapply Hgate, Hg.
Qed.

Lemma read_log_shape_witness :
  exists notice warning,
    [LogInfo (mergeNotice Demo.collaborators) "/conflict";
     LogWarn (ignoreNotice "/conflict/pnpm-lock.yaml") "/conflict"] =
    (notice ++ warning)%list /\
    (notice = [] \/
     notice = [LogInfo (mergeNotice Demo.collaborators) "/conflict"]) /\
    (warning = [] \/
     (exists w doc,
        warning = [LogWarn (downgradeWarning Demo.collaborators w)
                     "/conflict"] /\
        @Ok error ReadResult absent = Ok doc /\
        truthy (lockfile doc) = true) \/
     (warning = [LogWarn (ignoreNotice "/conflict/pnpm-lock.yaml")
                   "/conflict"] /\
      @Ok error ReadResult absent = Ok absent)).
Proof.
  apply (read_log_shape Demo.collaborators "/conflict/pnpm-lock.yaml"
           "/conflict" (Demo.opts (Some ["5.4"]) true)).
  reflexivity.
Defined.

(** ** More on the compatibility evaluation *)

(** X7. A document whose [lockfileVersion] is the string ['6.1'] never
    draws a downgrade warning, whatever [wantedVersions] holds and
    whatever [semver.gt] would say: the evaluation logs nothing, or just
    the ignore notice with the absent outcome. *)
Theorem gate_transitional_version_never_warned (C : Collaborators)
  (lockfilePath prefix : string) (opts : ReadOpts) (lockfile : value)
  (hadConflicts : bool) (l : list logEntry) (r : result error ReadResult) :
  strictEqString (get lockfile "lockfileVersion") "6.1" = true ->
  compatibilityGate C lockfilePath prefix opts lockfile hadConflicts =
  (l, r) ->
  l = [] \/
  (l = [LogWarn (ignoreNotice lockfilePath) prefix] /\ r = Ok absent).
Proof.
  intros Hraw Hg.
  destruct (gate_outcomes C _ _ _ _ _ _ _ Hg)
    as [(_ & -> & _) | [(_ & Hnot & _)
       | [(_ & -> & ->) | [(_ & -> & _) | (_ & -> & _)]]]]; auto.
  congruence.
Qed.

Lemma gate_transitional_version_never_warned_witness :
  @nil logEntry = [] \/
  (@nil logEntry = [LogWarn (ignoreNotice "/p/pnpm-lock.yaml") "/p"] /\
   Ok {| lockfile := Scenes.transitionalDoc; hadConflicts := false |} =
   @Ok error ReadResult absent).
Proof.
  apply (gate_transitional_version_never_warned Demo.collaborators
           "/p/pnpm-lock.yaml" "/p" (Demo.opts (Some ["6.0"]) false)
           Scenes.transitionalDoc false).
  - reflexivity.
  - reflexivity.
Defined.

(** X8. A format version that [semver] cannot read is not treated as an
    incompatible one. With a non-empty [wantedVersions], the error of
    [semver.major] on the document's expanded version leaves the
    evaluation as it is, [ignoreIncompatible] or not, and nothing is
    logged. *)
Theorem gate_invalid_format_version_throws (C : Collaborators)
  (lockfilePath prefix : string) (opts : ReadOpts) (lockfile : value)
  (hadConflicts : bool) (token : string) (wanted : list string)
  (err : JsError) :
  truthy lockfile = true ->
  lockfileToken lockfile = Ok token ->
  semver_major C (comverToSemver C token) = Err err ->
  wantedVersions opts = Some wanted ->
  wanted <> [] ->
  compatibilityGate C lockfilePath prefix opts lockfile hadConflicts =
  ([], Err (Thrown err)).
Proof.
  intros Ht Htok Hm Hw Hne. unfold compatibilityGate.
  rewrite Ht, Htok, bind_call_ok, Hw.
  destruct wanted as [|w ws]; [congruence|].
  simpl Nat.eqb. cbv iota. simpl some.
  unfold wantedVersionMatches. rewrite Hm. reflexivity.
Qed.

Lemma gate_invalid_format_version_throws_witness :
  compatibilityGate Demo.collaborators "/p/pnpm-lock.yaml" "/p"
    (Demo.opts (Some ["6.0"]) true) Scenes.unversionedDoc false =
  ([], Err (Thrown (Demo.invalidVersion "next.0.0"))).
Proof.
  apply (gate_invalid_format_version_throws Demo.collaborators
           "/p/pnpm-lock.yaml" "/p" (Demo.opts (Some ["6.0"]) true)
           Scenes.unversionedDoc false "next" ["6.0"]).
  - reflexivity.
  - reflexivity.
  - reflexivity.
  - reflexivity.
  - discriminate.
Defined.

Lemma sameMajor_or_all_other (C : Collaborators) (m : N)
  (wanted : list string) :
  (forall w, In w wanted ->
     exists n, semver_major C (comverToSemver C w) = Ok n) ->
  (exists w, In w wanted /\ sameMajor C m w) \/
  (forall w, In w wanted -> otherMajor C m w).
Proof.
  induction wanted as [|x rest IH]; intros Hall.
  - right. intros w [].
  - destruct (Hall x (or_introl eq_refl)) as (n & Hn).
    destruct (N.eq_dec n m) as [->|Hne].
    + left. exists x. split; [left; reflexivity | exact Hn].
    + destruct (IH (fun y Hy => Hall y (or_intror Hy)))
        as [(w & Hin & Hw) | Hother].
      * left. exists w. split; [right; exact Hin | exact Hw].
      * right. intros w [<-|Hin]; [exists n; auto | apply Hother; exact Hin].
Qed.

(** X9. Whether the document is accepted does not depend on the order of
    [wantedVersions], only on whether some member has the document's
    major component. When [semver] reads the document's version and every
    member, and [wantedVersions] is not empty, the evaluation returns the
    document exactly when such a member exists. *)
Theorem gate_accepts_iff_same_major (C : Collaborators)
  (lockfilePath prefix : string) (opts : ReadOpts) (lockfile : value)
  (hadConflicts : bool) (token : string) (m : N) (wanted : list string) :
  truthy lockfile = true ->
  lockfileToken lockfile = Ok token ->
  semver_major C (comverToSemver C token) = Ok m ->
  wantedVersions opts = Some wanted ->
  wanted <> [] ->
  (forall w, In w wanted ->
     exists n, semver_major C (comverToSemver C w) = Ok n) ->
  (forall w, In w wanted ->
     exists b,
       semver_gt C (comverToSemver C token) (comverToSemver C w) = Ok b) ->
  (exists l,
     compatibilityGate C lockfilePath prefix opts lockfile hadConflicts =
     (l, Ok {| lockfile := lockfile; hadConflicts := hadConflicts |})) <->
  (exists w, In w wanted /\ sameMajor C m w).
Proof.
  intros Ht Htok Hm Hw Hne Hall Hgt. split.
  - intros (l & Hg).
    destruct (sameMajor_or_all_other C m wanted Hall) as [Hex | Hother];
      [exact Hex|].
    rewrite (gate_rejects C lockfilePath prefix opts lockfile hadConflicts
               token m wanted Hw Hne Htok Hm Hother) in Hg.
    destruct (ignoreIncompatible opts); [|discriminate Hg].
    injection Hg as _ Hdoc _. rewrite <- Hdoc in Ht. discriminate Ht.
  - intros Hex.
    destruct (first_sameMajor C m wanted Hall Hex)
      as (pre & w & post & -> & Hpre & Hsame).
    assert (Hin : In w (pre ++ w :: post))
      by (apply in_or_app; right; left; reflexivity).
    assert (Hcb : exists l,
              wantedVersionMatches C lockfile (comverToSemver C token)
                prefix w = (l, Ok true)).
    { destruct (strictEqString (get lockfile "lockfileVersion") "6.1")
        eqn:Hraw.
      - exists []. apply (matches_quietly C _ _ _ _ m Hm Hsame). auto.
      - destruct (Hgt w Hin) as ([|] & Hb).
        + eexists. apply (matches_with_warning C _ _ _ _ m Hm Hsame Hraw Hb).
        + exists []. apply (matches_quietly C _ _ _ _ m Hm Hsame). auto. }
    destruct Hcb as (l & Hcb). exists l.
    apply (gate_accepts C _ _ _ _ _ token (pre ++ w :: post)%list);
      try assumption.
    apply some_first; [|exact Hcb].
    intros p Hp. apply (matches_other_major C _ _ _ _ m Hm).
    apply Hpre. exact Hp.
Qed.

Lemma gate_accepts_iff_same_major_witness :
  (exists l,
     compatibilityGate Demo.collaborators "/newer/pnpm-lock.yaml" "/newer"
       (Demo.opts (Some ["5.4"; "6.0"]) false) Demo.newerDoc false =
     (l, Ok {| lockfile := Demo.newerDoc; hadConflicts := false |})) <->
  (exists w, In w ["5.4"; "6.0"] /\ sameMajor Demo.collaborators 6%N w).
Proof.
  apply (gate_accepts_iff_same_major Demo.collaborators
           "/newer/pnpm-lock.yaml" "/newer"
           (Demo.opts (Some ["5.4"; "6.0"]) false) Demo.newerDoc false
           "6.3" 6%N ["5.4"; "6.0"]).
  - reflexivity.
  - reflexivity.
  - reflexivity.
  - reflexivity.
  - discriminate.
  - intros w [<-|[<-|[]]]; eexists; reflexivity.
  - intros w [<-|[<-|[]]]; eexists; reflexivity.
Defined.

(** ** More on the schema normalization *)

Lemma listed_In (k : string) (depTypes : list string) :
  listed k depTypes = true <-> In k depTypes.
Proof.
  unfold listed. rewrite existsb_exists. split.
  - intros (x & Hin & Heq). apply String.eqb_eq in Heq. subst. exact Hin.
  - intros Hin. exists k. split; [exact Hin | apply String.eqb_refl].
Qed.

Lemma listed_not_In (k : string) (depTypes : list string) :
  ~ In k depTypes -> listed k depTypes = false.
Proof.
  intros Hnot. destruct (listed k depTypes) eqn:E; [|reflexivity].
  apply listed_In in E. contradiction.
Qed.

Lemma listed_cons (k x : string) (rest : list string) :
  listed k (x :: rest) = (String.eqb k x || listed k rest)%bool.
Proof. reflexivity. Qed.

Lemma moveDependencies_importers (lockfileFile lockfileFile' : value)
  (depType : string) :
  hasDefaultSnapshot lockfileFile ->
  depType <> "importers" ->
  moveDependencies lockfileFile depType = Ok lockfileFile' ->
  get lockfileFile' "importers" =
  if isNull (get lockfileFile depType) then get lockfileFile "importers"
  else set (get lockfileFile "importers") "."
         (set (snapshotOf lockfileFile) depType (get lockfileFile depType)).
Proof.
  intros Hinv Hd Hstep.
  destruct (isNull (get lockfileFile depType)) eqn:Hnull.
  - rewrite moveDependencies_skip in Hstep
      by (destruct (get lockfileFile depType); try discriminate; reflexivity).
    injection Hstep as <-. reflexivity.
  - rewrite moveDependencies_move in Hstep
      by (try assumption; intros E; rewrite E in Hnull; discriminate).
    injection Hstep as <-.
    rewrite get_own, own_delete.
    destruct (String.eqb_spec "importers" depType) as [Heq|_];
      [symmetry in Heq; contradiction|].
    rewrite own_set by apply Hinv. reflexivity.
Qed.

Lemma moveDependencies_snapshot (lockfileFile lockfileFile' : value)
  (depType k : string) :
  hasDefaultSnapshot lockfileFile ->
  depType <> "importers" ->
  moveDependencies lockfileFile depType = Ok lockfileFile' ->
  own (snapshotOf lockfileFile') k =
  if (String.eqb k depType && negb (isNull (get lockfileFile depType)))%bool
  then Some (get lockfileFile depType)
  else own (snapshotOf lockfileFile) k.
Proof.
  intros Hinv Hd Hstep. unfold snapshotOf at 1.
  rewrite (moveDependencies_importers _ _ _ Hinv Hd Hstep).
  destruct Hinv as (_ & Himp & Hsnap).
  destruct (isNull (get lockfileFile depType)).
  - rewrite andb_false_r. reflexivity.
  - rewrite andb_true_r, get_own, own_set by assumption. simpl.
    apply own_set. exact Hsnap.
Qed.

(** The root after the loop: a listed field whose value was not [null]
    is gone, every other field except [importers] is as it was. *)
Lemma forOf_root (depTypes : list string) :
  ~ In "importers" depTypes ->
  forall lockfileFile final : value,
    hasDefaultSnapshot lockfileFile ->
    forOf moveDependencies depTypes lockfileFile = Ok final ->
    forall k : string,
      k <> "importers" ->
      own final k =
      if (listed k depTypes && negb (isNull (get lockfileFile k)))%bool
      then None else own lockfileFile k.
Proof.
  induction depTypes as [|x rest IH]; intros Hnot lockfileFile final Hinv Hrun
    k Hk.
  - simpl in Hrun. injection Hrun as <-. reflexivity.
  - assert (Hx : x <> "importers")
      by (intros ->; apply Hnot; left; reflexivity).
    assert (Hrest : ~ In "importers" rest)
      by (intros H; apply Hnot; right; exact H).
    simpl in Hrun.
    destruct (moveDependencies lockfileFile x) as [mid|e] eqn:Hstep;
      [|discriminate Hrun].
    simpl in Hrun.
    pose proof (moveDependencies_keeps _ _ _ Hinv Hx Hstep) as Hmid.
    pose proof (moveDependencies_root _ _ x k Hinv Hstep Hk) as Hroot.
    rewrite (IH Hrest mid final Hmid Hrun k Hk), listed_cons.
    rewrite (get_own mid k), Hroot.
    destruct (String.eqb_spec k x) as [->|Hne]; simpl.
    + destruct (isNull (get lockfileFile x)) eqn:Hnull; simpl.
      * rewrite <- get_own, Hnull, andb_false_r. reflexivity.
      * destruct (listed x rest); reflexivity.
    + rewrite <- get_own. reflexivity.
Qed.

(** The default snapshot after the loop, when no field is listed twice:
    a listed field whose root value was not [null] is in the snapshot
    with that value, every other property of the snapshot is as it
    was. *)
Lemma forOf_snapshot (depTypes : list string) :
  NoDup depTypes ->
  ~ In "importers" depTypes ->
  forall lockfileFile final : value,
    hasDefaultSnapshot lockfileFile ->
    forOf moveDependencies depTypes lockfileFile = Ok final ->
    forall k : string,
      own (snapshotOf final) k =
      if (listed k depTypes && negb (isNull (get lockfileFile k)))%bool
      then Some (get lockfileFile k)
      else own (snapshotOf lockfileFile) k.
Proof.
  induction depTypes as [|x rest IH];
    intros Hnodup Hnot lockfileFile final Hinv Hrun k.
  - simpl in Hrun. injection Hrun as <-. reflexivity.
  - assert (Hx : x <> "importers")
      by (intros ->; apply Hnot; left; reflexivity).
    assert (Hrest : ~ In "importers" rest)
      by (intros H; apply Hnot; right; exact H).
    inversion Hnodup as [|? ? Hfresh Hnodup']; subst.
    simpl in Hrun.
    destruct (moveDependencies lockfileFile x) as [mid|e] eqn:Hstep;
      [|discriminate Hrun].
    simpl in Hrun.
    pose proof (moveDependencies_keeps _ _ _ Hinv Hx Hstep) as Hmid.
    rewrite (IH Hnodup' Hrest mid final Hmid Hrun k), listed_cons.
    rewrite (moveDependencies_snapshot _ _ x k Hinv Hx Hstep).
    destruct (String.eqb_spec k x) as [->|Hne]; simpl.
    + rewrite (listed_not_In x rest Hfresh). reflexivity.
    + destruct (String.eqb_spec k "importers") as [->|Hk].
      * rewrite (listed_not_In "importers" rest Hrest). reflexivity.
      * rewrite (get_own mid k),
          (moveDependencies_root _ _ x k Hinv Hstep Hk).
        destruct (String.eqb_spec k x); [contradiction|].
        simpl. rewrite <- get_own. reflexivity.
Qed.

Lemma forOf_single_importer (depTypes : list string) :
  ~ In "importers" depTypes ->
  forall lockfileFile final : value,
    hasDefaultSnapshot lockfileFile ->
    get lockfileFile "importers" = VObj [(".", snapshotOf lockfileFile)] ->
    forOf moveDependencies depTypes lockfileFile = Ok final ->
    get final "importers" = VObj [(".", snapshotOf final)].
Proof.
  induction depTypes as [|x rest IH];
    intros Hnot lockfileFile final Hinv Hone Hrun.
  - simpl in Hrun. injection Hrun as <-. exact Hone.
  - assert (Hx : x <> "importers")
      by (intros ->; apply Hnot; left; reflexivity).
    assert (Hrest : ~ In "importers" rest)
      by (intros H; apply Hnot; right; exact H).
    simpl in Hrun.
    destruct (moveDependencies lockfileFile x) as [mid|e] eqn:Hstep;
      [|discriminate Hrun].
    simpl in Hrun.
    apply (IH Hrest mid final
             (moveDependencies_keeps _ _ _ Hinv Hx Hstep)); [|exact Hrun].
    unfold snapshotOf at 1.
    rewrite (moveDependencies_importers _ _ _ Hinv Hx Hstep).
    destruct (isNull (get lockfileFile x)); [exact Hone|].
    rewrite Hone. reflexivity.
Qed.

(** X10. What migration does to the root of a document without
    [importers]: [specifiers] is removed; a listed dependency field is
    removed unless its value is [null], in which case it stays; every
    other field but [importers] is left as it was, [dependenciesMeta] and
    [publishDirectory] included. *)
Theorem convert_root_after_migration (C : Collaborators) (d d' : value) :
  ~ In "importers" (DEPENDENCIES_FIELDS C) ->
  get d "importers" = VUndefined ->
  convertFromLockfileFileMutable C d = Ok d' ->
  own d' "specifiers" = None /\
  forall k : string,
    k <> "importers" -> k <> "specifiers" ->
    own d' k =
    if (listed k (DEPENDENCIES_FIELDS C) && negb (isNull (get d k)))%bool
    then None else own d k.
Proof.
  intros Hnot Himp Hconv.
  destruct (isObject d) eqn:Hobj.
  2: rewrite convert_primitive in Hconv by assumption; discriminate.
  rewrite (convert_legacy C d Himp Hobj) in Hconv.
  pose proof (beforeLoop_hasDefaultSnapshot d Hobj) as Hinv.
  pose proof (forOf_root _ Hnot _ _ Hinv Hconv) as Hroot.
  split.
  - rewrite Hroot by discriminate.
    assert (Hgone : own (beforeLoop d) "specifiers" = None)
      by (rewrite own_beforeLoop by (assumption || discriminate);
          reflexivity).
    rewrite Hgone. destruct (_ && _)%bool; reflexivity.
  - intros k Hk Hspec. rewrite (Hroot k Hk).
    rewrite (get_own (beforeLoop d) k), (own_beforeLoop d k Hobj Hk).
    destruct (String.eqb_spec k "specifiers"); [contradiction|].
    rewrite <- get_own. reflexivity.
Qed.

Lemma convert_root_after_migration_witness :
  exists d',
    convertFromLockfileFileMutable Demo.collaborators Demo.legacyDoc = Ok d' /\
    own d' "specifiers" = None /\
    own d' "dependencies" = None /\
    own d' "devDependencies" = Some VNull /\
    own d' "lockfileVersion" = Some (VNum "5.4").
Proof.
  eexists. split; [reflexivity|].
  assert (Hnot : ~ In "importers" (DEPENDENCIES_FIELDS Demo.collaborators))
    by (simpl; intros [H|[H|[H|[]]]]; discriminate H).
  pose proof (convert_root_after_migration Demo.collaborators
                Demo.legacyDoc _ Hnot eq_refl eq_refl) as [Hspec Hroot].
  split; [exact Hspec|].
  split; [|split].
  - exact (Hroot "dependencies" ltac:(discriminate) ltac:(discriminate)).
  - exact (Hroot "devDependencies" ltac:(discriminate) ltac:(discriminate)).
  - exact (Hroot "lockfileVersion" ltac:(discriminate) ltac:(discriminate)).
Defined.

(** X11. What migration puts under [importers] when no dependency field
    is listed twice: exactly one project, ['.']. Its snapshot holds every
    listed field whose root value was not [null], with that value, and a
    listed field that was missing from the root as an own property set to
    [undefined]; its other properties are those of the literal:
    [specifiers] (an empty object when the root had none),
    [dependenciesMeta] and [publishDirectory]. *)
Theorem convert_default_snapshot (C : Collaborators) (d d' : value) :
  NoDup (DEPENDENCIES_FIELDS C) ->
  ~ In "importers" (DEPENDENCIES_FIELDS C) ->
  get d "importers" = VUndefined ->
  convertFromLockfileFileMutable C d = Ok d' ->
  get d' "importers" = VObj [(".", snapshotOf d')] /\
  (forall k : string,
     k <> "specifiers" ->
     own (snapshotOf d') k =
     if (listed k (DEPENDENCIES_FIELDS C) && negb (isNull (get d k)))%bool
     then Some (get d k)
     else own (defaultSnapshot d) k) /\
  (~ In "specifiers" (DEPENDENCIES_FIELDS C) ->
   own (snapshotOf d') "specifiers" =
   Some (nullish (get d "specifiers") (VObj []))).
Proof.
  intros Hnodup Hnot Himp Hconv.
  destruct (isObject d) eqn:Hobj.
  2: rewrite convert_primitive in Hconv by assumption; discriminate.
  rewrite (convert_legacy C d Himp Hobj) in Hconv.
  pose proof (beforeLoop_hasDefaultSnapshot d Hobj) as Hinv.
  assert (Himporters : get (beforeLoop d) "importers" =
                       VObj [(".", defaultSnapshot d)]).
  { unfold beforeLoop. rewrite get_own, own_delete. simpl.
    rewrite own_set by assumption. reflexivity. }
  assert (Hsnap : snapshotOf (beforeLoop d) = defaultSnapshot d)
    by (unfold snapshotOf; rewrite Himporters; reflexivity).
  pose proof (forOf_snapshot _ Hnodup Hnot _ _ Hinv Hconv) as Hfields.
  split; [|split].
  - apply (forOf_single_importer _ Hnot _ _ Hinv); [|exact Hconv].
    rewrite Hsnap. exact Himporters.
  - intros k Hspec. rewrite (Hfields k), Hsnap.
    destruct (String.eqb_spec k "importers") as [->|Hk].
    + rewrite (listed_not_In "importers" _ Hnot). reflexivity.
    + rewrite (get_own (beforeLoop d) k), (own_beforeLoop d k Hobj Hk).
      destruct (String.eqb_spec k "specifiers"); [contradiction|].
      rewrite <- get_own. reflexivity.
  - intros Hunlisted.
    rewrite (Hfields "specifiers"), Hsnap,
      (listed_not_In "specifiers" _ Hunlisted).
    reflexivity.
Qed.

Lemma convert_default_snapshot_witness :
  exists d',
    convertFromLockfileFileMutable Demo.collaborators Demo.legacyDoc = Ok d' /\
    get d' "importers" = VObj [(".", snapshotOf d')] /\
    own (snapshotOf d') "dependencies" = Some (VObj []) /\
    own (snapshotOf d') "optionalDependencies" = Some VUndefined /\
    own (snapshotOf d') "devDependencies" = None /\
    own (snapshotOf d') "specifiers" = Some (VObj []).
Proof.
  eexists. split; [reflexivity|].
  assert (Hnodup : NoDup (DEPENDENCIES_FIELDS Demo.collaborators)).
  { simpl. repeat constructor; simpl; intuition discriminate. }
  assert (Hnot : ~ In "importers" (DEPENDENCIES_FIELDS Demo.collaborators))
    by (simpl; intros [H|[H|[H|[]]]]; discriminate H).
  pose proof (convert_default_snapshot Demo.collaborators Demo.legacyDoc _
                Hnodup Hnot eq_refl eq_refl) as (Hone & Hfields & Hspec).
  split; [exact Hone|].
  split; [|split; [|split]].
  - exact (Hfields "dependencies" ltac:(discriminate)).
  - exact (Hfields "optionalDependencies" ltac:(discriminate)).
  - exact (Hfields "devDependencies" ltac:(discriminate)).
  - apply Hspec. simpl. intros [H|[H|[H|[]]]]; discriminate H.
Defined.

(** X12. A lockfile whose YAML is not a mapping or a sequence, such as an
    empty file, which loads as [undefined], fails normalization; unless
    its text has conflict markers and autofix is permitted, [_read]
    reports it as a broken lockfile, with nothing logged. *)
Theorem read_not_a_mapping_is_broken (C : Collaborators)
  (lockfilePath prefix : string) (opts : ReadOpts) (content : string)
  (loaded : value) :
  readFileSync C lockfilePath = Ok content ->
  yaml_load C (stripBom C content) = Ok loaded ->
  isObject loaded = false ->
  autofixPermitted opts = false \/ isDiff C (stripBom C content) = false ->
  exists m,
    _read C lockfilePath prefix opts =
    ([], Err (PnpmError "BROKEN_LOCKFILE" m)).
Proof.
  intros Hread Hload Hprim Hno.
  assert (Hparse : parseLockfile C (stripBom C content) =
                   Err (TypeError "Cannot set properties")).
  { unfold parseLockfile. rewrite Hload. simpl.
    rewrite convert_primitive by assumption. reflexivity. }
  eexists. unfold _read. rewrite Hread, Hparse.
  destruct Hno as [-> | ->]; [|rewrite orb_true_r]; reflexivity.
Qed.

Lemma read_not_a_mapping_is_broken_witness :
  exists m,
    _read Scenes.emptyFile "/empty/pnpm-lock.yaml" "/empty"
      (Demo.opts None false) =
    ([], Err (PnpmError "BROKEN_LOCKFILE" m)).
Proof.
  apply (read_not_a_mapping_is_broken Scenes.emptyFile
           "/empty/pnpm-lock.yaml" "/empty" (Demo.opts None false)
           EmptyString VUndefined).
  - reflexivity.
  - reflexivity.
  - reflexivity.
  - right. reflexivity.
Defined.

(** ** The public entry point *)

Lemma readWantedLockfile_of_read (C : Collaborators) (pkgPath : string)
  (opts : ReadOpts) (l : list logEntry) (r : result error ReadResult) :
  _read C (path_join C pkgPath (WANTED_LOCKFILE C)) pkgPath
    (withAutofix opts) = (l, r) ->
  readWantedLockfile C pkgPath opts =
  (l, match r with
      | Ok outcome => Ok (lockfile outcome)
      | Err e => Err e
      end).
Proof.
  intros H. unfold readWantedLockfile.
  rewrite readWantedLockfile_single_read, H.
  destruct r; simpl; [rewrite app_nil_r|]; reflexivity.
Qed.

(** X13. A project without a lockfile: [readWantedLockfile] returns
    [null], throws nothing and logs nothing, whatever the options. *)
Theorem readWantedLockfile_missing_file (C : Collaborators)
  (pkgPath : string) (opts : ReadOpts) (err : JsError) :
  readFileSync C (path_join C pkgPath (WANTED_LOCKFILE C)) = Err err ->
  code err = Some "ENOENT" ->
  readWantedLockfile C pkgPath opts = ([], Ok VNull).
Proof.
  intros Hread Hcode.
  apply (readWantedLockfile_of_read C pkgPath opts [] (Ok absent)).
  unfold _read. rewrite Hread, Hcode. reflexivity.
Qed.

Lemma readWantedLockfile_missing_file_witness :
  readWantedLockfile Demo.collaborators "/missing"
    (Demo.opts (Some ["6.0"]) false) = ([], Ok VNull).
Proof.
  apply (readWantedLockfile_missing_file Demo.collaborators "/missing"
           (Demo.opts (Some ["6.0"]) false)
           (mkJsError (Some "ENOENT") "ENOENT: no such file or directory")).
  - reflexivity.
  - reflexivity.
Defined.

(** X14. The errors [readWantedLockfile] constructs itself. It always
    permits autofix, so it reports [BROKEN_LOCKFILE] only for a text
    without conflict markers; and it throws
    [LockfileBreakingChangeError] only with [ignoreIncompatible] off,
    for the wanted lockfile of the package path. *)
Theorem readWantedLockfile_own_errors (C : Collaborators)
  (pkgPath : string) (opts : ReadOpts) (l : list logEntry) (e : error) :
  readWantedLockfile C pkgPath opts = (l, Err e) ->
  match e with
  | PnpmError c _ =>
      c = "BROKEN_LOCKFILE" /\
      exists content,
        readFileSync C (path_join C pkgPath (WANTED_LOCKFILE C)) =
        Ok content /\
        isDiff C (stripBom C content) = false
  | LockfileBreakingChangeError p =>
      p = path_join C pkgPath (WANTED_LOCKFILE C) /\
      ignoreIncompatible opts = false
  | Thrown _ => True
  end.
Proof.
  intros H.
  destruct (_read C (path_join C pkgPath (WANTED_LOCKFILE C)) pkgPath
              (withAutofix opts)) as [lr rr] eqn:Hread.
  rewrite (readWantedLockfile_of_read C pkgPath opts lr rr Hread) in H.
  destruct rr as [outcome|e']; [discriminate H|].
  injection H as -> ->.
  apply read_path in Hread.
  assert (Hgate : forall doc flag lg,
            compatibilityGate C (path_join C pkgPath (WANTED_LOCKFILE C))
              pkgPath (withAutofix opts) doc flag = (lg, Err e) ->
            match e with
            | PnpmError c _ =>
                c = "BROKEN_LOCKFILE" /\
                exists content,
                  readFileSync C (path_join C pkgPath (WANTED_LOCKFILE C)) =
                  Ok content /\
                  isDiff C (stripBom C content) = false
            | LockfileBreakingChangeError p =>
                p = path_join C pkgPath (WANTED_LOCKFILE C) /\
                ignoreIncompatible opts = false
            | Thrown _ => True
            end).
  { intros doc flag lg Hg.
    destruct (gate_outcomes C _ _ _ _ _ _ _ Hg)
      as [(_ & _ & Hr) | [(_ & _ & ws & w & _ & _ & _ & Hr)
         | [(_ & _ & Hr) | [(Hi & _ & Hr) | (_ & _ & err & Hr)]]]];
      try discriminate Hr; injection Hr as ->; [|exact I].
    split; [reflexivity | exact Hi]. }
  inversion Hread as [ err Hfile Hcode
                     | err Hfile Hcode
                     | content parsed lg rg Hfile Hparse Hg
                     | content err Hfile Hparse Hno
                     | content err failure Hfile Hparse Hfix Hdiff Hfail
                     | content err merged normalized lg rg
                         Hfile Hparse Hfix Hdiff Hmerge Hconv Hg ]; subst.
  - exact I.
  - eapply Hgate, Hg.
  - split; [reflexivity|]. exists content. split; [exact Hfile|].
    destruct Hno as [Hoff | Hdiff]; [discriminate Hoff | exact Hdiff].
  - exact I.
  - eapply Hgate, Hg.
Qed.

Lemma readWantedLockfile_own_errors_witness :
  "BROKEN_LOCKFILE" = "BROKEN_LOCKFILE" /\
  exists content,
    readFileSync Demo.collaborators
      (path_join Demo.collaborators "/broken"
         (WANTED_LOCKFILE Demo.collaborators)) = Ok content /\
    isDiff Demo.collaborators (stripBom Demo.collaborators content) = false.
Proof.
  apply (readWantedLockfile_own_errors Demo.collaborators "/broken"
           (Demo.opts None false) []
           (PnpmError "BROKEN_LOCKFILE"
              ("The lockfile at " ++ dquote ++ "/broken/pnpm-lock.yaml" ++
               dquote ++ " is broken: " ++ message Demo.syntaxError))).
  reflexivity.
Defined.

(** ** Members of [wantedVersions] that are not versions *)

(** X15. [wantedVersions] is examined in order and only as far as
    needed. A member [semver] cannot read makes the evaluation throw
    [semver]'s error when every member before it has another major
    component than the document, even if a later member would have
    matched, and [ignoreIncompatible] does not prevent it. *)
Theorem gate_invalid_wanted_version_throws (C : Collaborators)
  (lockfilePath prefix : string) (opts : ReadOpts) (lockfile : value)
  (hadConflicts : bool) (token : string) (m : N)
  (pre post : list string) (w : string) (err : JsError) :
  truthy lockfile = true ->
  lockfileToken lockfile = Ok token ->
  semver_major C (comverToSemver C token) = Ok m ->
  wantedVersions opts = Some (pre ++ w :: post)%list ->
  (forall p, In p pre -> otherMajor C m p) ->
  semver_major C (comverToSemver C w) = Err err ->
  compatibilityGate C lockfilePath prefix opts lockfile hadConflicts =
  ([], Err (Thrown err)).
Proof.
  intros Ht Htok Hm Hw Hpre Hbad. unfold compatibilityGate.
  rewrite Ht, Htok, bind_call_ok, Hw.
  assert (Hlen : Nat.eqb (List.length (pre ++ w :: post)) 0 = false)
    by (destruct pre; reflexivity).
  rewrite Hlen.
  assert (Hsome :
    some (wantedVersionMatches C lockfile (comverToSemver C token) prefix)
      (pre ++ w :: post) = ([], Err (Thrown err))).
  { clear Hw Hlen. induction pre as [|p pre IH]; simpl.
    - unfold wantedVersionMatches. rewrite Hm, bind_call_ok, Hbad.
      reflexivity.
    - rewrite (matches_other_major C _ _ _ _ m Hm
                 (Hpre p (or_introl eq_refl))).
      change (@nil logEntry, @Ok error bool false) with (ret false).
      rewrite bind_ret. apply IH.
      intros q Hq. apply Hpre. right. exact Hq. }
  rewrite Hsome. reflexivity.
Qed.

Lemma gate_invalid_wanted_version_throws_witness :
  compatibilityGate Demo.collaborators "/newer/pnpm-lock.yaml" "/newer"
    (Demo.opts (Some ["5.4"; "latest"; "6.0"]) true) Demo.newerDoc false =
  ([], Err (Thrown (Demo.invalidVersion "latest.0.0"))).
Proof.
  apply (gate_invalid_wanted_version_throws Demo.collaborators
           "/newer/pnpm-lock.yaml" "/newer"
           (Demo.opts (Some ["5.4"; "latest"; "6.0"]) true)
           Demo.newerDoc false "6.3" 6%N ["5.4"] ["6.0"] "latest").
  - reflexivity.
  - reflexivity.
  - reflexivity.
  - reflexivity.
  - intros p [<-|[]]. exists 5%N. split; [reflexivity | discriminate].
  - reflexivity.
Defined.
